(** * Cloud SQL Go connector: the dialer and the DNS name resolver

    A shallow embedding of [dialer.go] (package [cloudsqlconn]) and of the
    DNS instance-name resolver (package [cloudsql]), with the properties the
    specification states about them.

    Conventions of the embedding.
    - Go functions that talk to the outside (DNS, the network, the metadata
      provider, the clock) are state-passing functions over an abstract
      outside world; every such call is also appended to a log, so that
      "is called exactly once" and "is never called" are statements about
      the log.
    - A [(T, error)] result is a sum: [inl v] for [(v, nil)] and [inr e] for
      [(zero, e)]; a bare [error] result is an [option error].
    - Closures are defunctionalised: the two function literals of [Dial] are
      the two constructors of [Task].
    - [go f()] appends [f] to the list of goroutines that have been started
      and have not run yet; a scheduler step runs any one of them. *)

From Stdlib Require Import ZArith NArith List Ascii String.
From Stdlib Require Import Sorting.Sorted Sorting.Permutation.
From stdpp Require Import base strings list gmap sorting.

Local Open Scope string_scope.

(** ** Errors *)

(** Go [error] values. [ErrExternal] is an error made by a collaborator;
    [Errorf_q] and [Errorf_q_v] are [fmt.Errorf] with a format that has one
    [%q] verb, and one [%q] verb followed by one [%v] verb, which is all the
    resolver uses; [DialError] is [errtypes.NewDialError(msg, cn, err)], an
    error that keeps the message, the connection name and the cause it is
    made from. *)
Inductive error : Type :=
  | ErrExternal (msg : string)
  | Errorf_q (format : string) (q : string)
  | Errorf_q_v (format : string) (q : string) (v : error)
  | DialError (msg : string) (cn : string) (err : error).

(** ** A state monad for the effectful code *)

Definition M (S A : Type) : Type := S -> A * S.

Definition ret {S A : Type} (a : A) : M S A := fun s => (a, s).

Definition bind {S A B : Type} (m : M S A) (k : A -> M S B) : M S B :=
  fun s => let (a, s') := m s in k a s'.

Definition gets {S A : Type} (f : S -> A) : M S A := fun s => (f s, s).

Definition modify {S : Type} (f : S -> S) : M S unit := fun s => (tt, f s).

Notation "'let*' x ':=' m 'in' k" := (bind m (fun x => k))
  (at level 10, x pattern, m at level 100, k at level 200).

(** ** Package [instance]: connection names *)

(** Modelled from the spec: the struct [instance.ConnName] is not part of the
    sources at hand; the specification gives it as the tuple
    [{project, region, name}]. *)
Record ConnName : Type := mkConnName {
  project : string;
  region : string;
  name : string
}.

(** The parser [instance.ParseConnName] is a collaborator the resolver
    consumes as a black box: the resolver is embedded over any parser. *)
Class ConnNameParser : Type :=
  ParseConnName : string -> ConnName + error.

(** ** Package [cloudsql]: the DNS resolver *)

(** [net.SRV] *)
Record SRV : Type := mkSRV {
  Target : string;
  Port : N;
  Priority : N;
  Weight : N
}.

(** The interface [netResolver]: an implementation of type [R] answers an
    SRV query with [(cname, addrs, err)] and its next state. The context
    argument is part of the state of the implementation. *)
Class netResolver (R : Type) : Type :=
  LookupSRV : R -> string -> string -> string ->
              (string * list SRV * option error) * R.

(** [DNSInstanceConnectionNameResolver], together with the log of the SRV
    queries it has issued (service, proto, name). *)
Record DNSInstanceConnectionNameResolver (R : Type) : Type := mkResolver {
  dnsResolver : R;
  srvQueries : list (string * string * string)
}.
Arguments mkResolver {R} _ _.
Arguments dnsResolver {R} _.
Arguments srvQueries {R} _.

(** [strings.TrimRight(s, cutset)] for a cutset of single-byte characters:
    the longest prefix of [s] whose last byte is not in the cutset. *)
Fixpoint inCutset (c : ascii) (cutset : string) : bool :=
  match cutset with
  | EmptyString => false
  | String d rest => if Ascii.eqb c d then true else inCutset c rest
  end.

Fixpoint TrimRight (s cutset : string) : string :=
  match s with
  | EmptyString => EmptyString
  | String c s' =>
      match TrimRight s' cutset with
      | EmptyString => if inCutset c cutset then EmptyString
                       else String c EmptyString
      | t => String c t
      end
  end.

(** The comparison function handed to [sort.Slice] in [queryDNS]. *)
Definition less (a b : SRV) : bool :=
  if (Priority a =? Priority b)%N then String.ltb (Target a) (Target b)
  else (Priority a <? Priority b)%N.

(** [sort.Slice(records, less)]. The Go sort is not stable and its algorithm
    is not part of this program; it is embedded as an insertion sort, and
    [queryDNS_sort_independent] shows the result of [queryDNS] is the same
    for every other way of sorting by [less]. *)
Fixpoint insertSRV (r : SRV) (l : list SRV) : list SRV :=
  match l with
  | [] => [r]
  | x :: xs => if less x r then x :: insertSRV r xs else r :: x :: xs
  end.

Fixpoint sortSlice (records : list SRV) : list SRV :=
  match records with
  | [] => []
  | r :: rest => insertSRV r (sortSlice rest)
  end.

Section Resolver.
Context `{ConnNameParser} {R : Type} `{netResolver R}.

Definition callLookupSRV (service proto domainName : string)
  : M (DNSInstanceConnectionNameResolver R) (string * list SRV * option error) :=
  fun r =>
    let (res, dns') := LookupSRV (dnsResolver r) service proto domainName in
    (res, mkResolver dns' (srvQueries r ++ [(service, proto, domainName)])).

(** The [for _, record := range records] loop of [queryDNS], with the
    loop variable [perr]: [inl cn] when the loop returns from the function,
    [inr perr] when it runs to its end. *)
Fixpoint parseRecords (domainName : string) (records : list SRV)
    (perr : option error) : ConnName + option error :=
  match records with
  | [] => inr perr
  | record :: rest =>
      let target := TrimRight (Target record) "." in
      match ParseConnName target with
      | inr parseErr =>
          parseRecords domainName rest
            (Some (Errorf_q_v "unable to parse SRV for %q: %v" domainName parseErr))
      | inl cn => inl cn
      end
  end.

(** What [queryDNS] does with the answer of [LookupSRV]. *)
Definition selectRecord (sort : list SRV -> list SRV) (domainName : string)
    (records : list SRV) (err : option error) : ConnName + error :=
  match parseRecords domainName (sort records) None with
  | inl cn => inl cn
  | inr perr =>
      match err with
      | Some e =>
          inr (Errorf_q_v "unable to resolve SRV record for %q: %v" domainName e)
      | None =>
          match perr with
          | Some pe => inr pe
          | None => inr (Errorf_q "no valid SRV records found for %q" domainName)
          end
      end
  end.

Definition queryDNSWith (sort : list SRV -> list SRV) (domainName : string)
  : M (DNSInstanceConnectionNameResolver R) (ConnName + error) :=
  let* (_, records, err) := callLookupSRV EmptyString EmptyString domainName in
  ret (selectRecord sort domainName records err).

Definition queryDNS (domainName : string)
  : M (DNSInstanceConnectionNameResolver R) (ConnName + error) :=
  queryDNSWith sortSlice domainName.

Definition Lookup (icn : string)
  : M (DNSInstanceConnectionNameResolver R) (ConnName + error) :=
  match ParseConnName icn with
  | inr _ =>
      let* r := queryDNS icn in
      match r with
      | inr err => ret (inr err)
      | inl cn => ret (inl cn)
      end
  | inl cn => ret (inl cn)
  end.
End Resolver.

(** ** Package [cloudsqlconn]: the dialer *)

(** A [*cloudsql.Instance] and a [*tls.Config] are pointers to objects of
    collaborators: they are embedded as addresses, and what the objects hold
    is part of the outside world. *)
Definition Instance : Type := N.
Definition TLSConfig : Type := N.

(** [net.Conn] values: what [dialFunc] may return (a [*net.TCPConn] or any
    other implementation, both named by their descriptor) and the
    [*tls.Conn] that [tls.Client(conn, cfg)] builds. *)
Inductive netConn : Type :=
  | TCPConn (fd : N)
  | OtherConn (fd : N)
  | TLSClient (conn : netConn) (cfg : TLSConfig).

(** The two function literals of [Dial]: the goroutine started on success
    and the [closeFunc] handed to [newInstrumentedConn]. *)
Inductive Task : Type :=
  | incOpenConns (instance : string) (latency : Z)
  | decOpenConns (instance : string).

Record instrumentedConn : Type := mkInstrumentedConn {
  Conn : netConn;
  closeFunc : Task
}.

Record dialCfg : Type := mkDialCfg {
  ipType : string;
  tcpKeepAlive : Z
}.

(** A [DialOption] is a function on a pointer to a [dialCfg]: it updates the
    configuration. *)
Definition DialOption : Type := dialCfg -> dialCfg.

Inductive Attr : Type :=
  | AddInstanceName (instance : string)
  | AddDialerID (dialerID : string).

(** The log: one entry per call to a collaborator, with its result. *)
Inductive Event : Type :=
  | EvStartSpan (span : string) (attrs : list Attr)
  | EvEndSpan (span : string) (err : option error)
  | EvNewInstance (connName : string) (res : Instance + error)
  | EvConnectInfo (i : Instance) (ip : string) (res : (string * TLSConfig) + error)
  | EvDialFunc (network addr : string) (res : netConn + error)
  | EvSetKeepAlive (c : netConn) (keepalive : bool) (res : option error)
  | EvSetKeepAlivePeriod (c : netConn) (d : Z) (res : option error)
  | EvHandshake (c : netConn) (res : option error)
  | EvForceRefresh (i : Instance)
  | EvClose (c : netConn) (res : option error)
  | EvRecordDialLatency (instance dialerID : string) (latency : Z).

(** The collaborators of the dialer over an outside world [E]:
    [cloudsql.NewInstance] and the methods of [*cloudsql.Instance], the
    methods of the connections, and the clock. *)
Class Collaborators (E : Type) : Type := {
  NewInstance : string -> N -> N -> Z -> option N -> E -> (Instance + error) * E;
  ConnectInfo : Instance -> string -> E -> ((string * TLSConfig) + error) * E;
  ForceRefresh : Instance -> E -> E;
  Instance_String : Instance -> string;
  SetKeepAlive : netConn -> bool -> E -> option error * E;
  SetKeepAlivePeriod : netConn -> Z -> E -> option error * E;
  Handshake : netConn -> E -> option error * E;
  Conn_Close : netConn -> E -> option error * E;
  time_Now : E -> Z * E;
  time_Since : Z -> E -> Z * E
}.

(** The fields of [Dialer] that are fixed once [NewDialer] has returned. The
    two maps, which change afterwards, are in [World]; the two locks are the
    reason the critical sections below are single steps. *)
Record Dialer (E : Type) : Type := mkDialer {
  key : N;
  refreshTimeout : Z;
  sqladmin : N;
  defaultDialCfg : dialCfg;
  dialerID : string;
  dialFunc : string -> string -> E -> (netConn + error) * E;
  iamTokenSource : option N
}.
Arguments mkDialer {E} _ _ _ _ _ _ _.
Arguments key {E} _.
Arguments refreshTimeout {E} _.
Arguments sqladmin {E} _.
Arguments defaultDialCfg {E} _.
Arguments dialerID {E} _.
Arguments dialFunc {E} _ _ _ _.
Arguments iamTokenSource {E} _.

Record World (E : Type) : Type := mkWorld {
  instances : gmap string Instance;
  openConns : gmap string Z;
  outside : E;
  log : list Event;
  goroutines : list Task
}.
Arguments mkWorld {E} _ _ _ _ _.
Arguments instances {E} _.
Arguments openConns {E} _.
Arguments outside {E} _.
Arguments log {E} _.
Arguments goroutines {E} _.

Definition serverProxyPort : string := "3307".

Definition spanDial : string := "cloud.google.com/go/cloudsqlconn.Dial".
Definition spanInstanceInfo : string :=
  "cloud.google.com/go/cloudsqlconn/internal.InstanceInfo".
Definition spanConnect : string :=
  "cloud.google.com/go/cloudsqlconn/internal.Connect".

(** [net.JoinHostPort]: a host that has a colon is taken to be a literal IPv6
    address and is put in brackets. *)
Definition JoinHostPort (host port : string) : string :=
  if inCutset ":" host
  then "[" ++ host ++ "]:" ++ port
  else host ++ ":" ++ port.

(** Arithmetic of [int64]. *)
Definition wrap64 (z : Z) : Z := ((z + 2 ^ 63) mod 2 ^ 64 - 2 ^ 63)%Z.

(** [time.Duration.Milliseconds] *)
Definition Milliseconds (d : Z) : Z := (d ÷ 1000000)%Z.

Definition errOf {A : Type} (r : A + error) : option error :=
  match r with
  | inl _ => None
  | inr e => Some e
  end.

Section DialerModel.
Context {E : Type} `{Collaborators E}.

Definition setOutside (e : E) (w : World E) : World E :=
  mkWorld (instances w) (openConns w) e (log w) (goroutines w).

Definition emit (ev : Event) : M (World E) unit :=
  modify (fun w =>
    mkWorld (instances w) (openConns w) (outside w) (log w ++ [ev]) (goroutines w)).

(** A call to a collaborator: run it on the outside world, log it. *)
Definition call {A : Type} (f : E -> A * E) (ev : A -> Event) : M (World E) A :=
  fun w =>
    let (a, e') := f (outside w) in
    let (_, w') := emit (ev a) (setOutside e' w) in
    (a, w').

(** The statement [go t()]. *)
Definition go (t : Task) : M (World E) unit :=
  modify (fun w =>
    mkWorld (instances w) (openConns w) (outside w) (log w) (goroutines w ++ [t])).

Definition setInstance (connName : string) (i : Instance) : M (World E) unit :=
  modify (fun w =>
    mkWorld (<[connName := i]> (instances w)) (openConns w) (outside w) (log w)
            (goroutines w)).

(** [d.openConns[instance] += delta], under [d.mu]. *)
Definition addOpenConns (instance : string) (delta : Z) : M (World E) unit :=
  modify (fun w =>
    mkWorld (instances w)
            (<[instance := wrap64 (default 0%Z (openConns w !! instance) + delta)]>
               (openConns w))
            (outside w) (log w) (goroutines w)).

(** *** [Dialer.instance] *)

(** The section under the read lock. *)
Definition instance_RLock (connName : string) : M (World E) (option Instance) :=
  gets (fun w => instances w !! connName).

(** The section under the write lock. *)
Definition instance_Lock (d : Dialer E) (connName : string)
  : M (World E) (Instance + error) :=
  let* cached := gets (fun w => instances w !! connName) in
  match cached with
  | Some i => ret (inl i)
  | None =>
      let* r := call (NewInstance connName (sqladmin d) (key d) (refreshTimeout d)
                                  (iamTokenSource d))
                     (EvNewInstance connName) in
      match r with
      | inr err => ret (inr err)
      | inl i => let* _ := setInstance connName i in ret (inl i)
      end
  end.

Definition Dialer_instance (d : Dialer E) (connName : string)
  : M (World E) (Instance + error) :=
  let* cached := instance_RLock connName in
  match cached with
  | Some i => ret (inl i)
  | None => instance_Lock d connName
  end.

(** *** [Dialer.Dial] *)

Definition newInstrumentedConn (conn : netConn) (closeFunc : Task)
  : instrumentedConn :=
  mkInstrumentedConn conn closeFunc.

Definition forceRefresh (i : Instance) : M (World E) unit :=
  call (fun e => (tt, ForceRefresh i e)) (fun _ => EvForceRefresh i).

(** From [net.JoinHostPort] to the final [return]: the part of [Dial] that
    runs between the start of the span [Connect] and its deferred end. *)
Definition Dial_connect (d : Dialer E) (startTime : Z) (instance : string)
    (cfg : dialCfg) (i : Instance) (addr : string) (tlsCfg : TLSConfig)
  : M (World E) (instrumentedConn + error) :=
  let addr := JoinHostPort addr serverProxyPort in
  let* dialed := call (dialFunc d "tcp" addr) (EvDialFunc "tcp" addr) in
  match dialed with
  | inr err =>
      let* _ := forceRefresh i in
      ret (inr (DialError "failed to dial" (Instance_String i) err))
  | inl conn =>
      let* keepAlive :=
        match conn with
        | TCPConn _ =>
            let* e1 := call (SetKeepAlive conn true) (EvSetKeepAlive conn true) in
            match e1 with
            | Some err =>
                ret (Some (DialError "failed to set keep-alive" (Instance_String i) err))
            | None =>
                let* e2 := call (SetKeepAlivePeriod conn (tcpKeepAlive cfg))
                                (EvSetKeepAlivePeriod conn (tcpKeepAlive cfg)) in
                match e2 with
                | Some err =>
                    ret (Some (DialError "failed to set keep-alive period"
                                         (Instance_String i) err))
                | None => ret None
                end
            end
        | _ => ret None
        end in
      match keepAlive with
      | Some err => ret (inr err)
      | None =>
          let tlsConn := TLSClient conn tlsCfg in
          let* hs := call (Handshake tlsConn) (EvHandshake tlsConn) in
          match hs with
          | Some err =>
              let* _ := forceRefresh i in
              let* _ := call (Conn_Close tlsConn) (EvClose tlsConn) in
              ret (inr (DialError "handshake failed" (Instance_String i) err))
          | None =>
              let* elapsed := fun w => let (t, e') := time_Since startTime (outside w) in
                                       (t, setOutside e' w) in
              let latency := Milliseconds elapsed in
              let* _ := go (incOpenConns instance latency) in
              ret (inl (newInstrumentedConn tlsConn (decOpenConns instance)))
          end
      end
  end.

(** The part of [Dial] that runs between the start of the span [Dial] and
    its deferred end. *)
Definition Dial_spanned (d : Dialer E) (startTime : Z) (instance : string)
    (opts : list DialOption) : M (World E) (instrumentedConn + error) :=
  let cfg := fold_left (fun cfg opt => opt cfg) opts (defaultDialCfg d) in
  let* _ := emit (EvStartSpan spanInstanceInfo []) in
  let* got := Dialer_instance d instance in
  match got with
  | inr err =>
      let* _ := emit (EvEndSpan spanInstanceInfo (Some err)) in
      ret (inr err)
  | inl i =>
      let* info := call (ConnectInfo i (ipType cfg)) (EvConnectInfo i (ipType cfg)) in
      match info with
      | inr err =>
          let* _ := emit (EvEndSpan spanInstanceInfo (Some err)) in
          ret (inr err)
      | inl (addr, tlsCfg) =>
          let* _ := emit (EvEndSpan spanInstanceInfo None) in
          let* _ := emit (EvStartSpan spanConnect []) in
          let* r := Dial_connect d startTime instance cfg i addr tlsCfg in
          let* _ := emit (EvEndSpan spanConnect (errOf r)) in
          ret r
      end
  end.

Definition Dial (d : Dialer E) (instance : string) (opts : list DialOption)
  : M (World E) (instrumentedConn + error) :=
  let* startTime := fun w => let (t, e') := time_Now (outside w) in
                             (t, setOutside e' w) in
  let* _ := emit (EvStartSpan spanDial
                    [AddInstanceName instance; AddDialerID (dialerID d)]) in
  let* r := Dial_spanned d startTime instance opts in
  let* _ := emit (EvEndSpan spanDial (errOf r)) in
  ret r.

(** *** [instrumentedConn.Close] *)

Definition instrumentedConn_Close (i : instrumentedConn)
  : M (World E) (option error) :=
  let* err := call (Conn_Close (Conn i)) (EvClose (Conn i)) in
  match err with
  | Some e => ret (Some e)
  | None => let* _ := go (closeFunc i) in ret None
  end.

(** *** Goroutines *)

(** The body of a started goroutine. *)
Definition runTask (d : Dialer E) (t : Task) : M (World E) unit :=
  match t with
  | incOpenConns instance latency =>
      let* _ := addOpenConns instance 1 in
      emit (EvRecordDialLatency instance (dialerID d) latency)
  | decOpenConns instance => addOpenConns instance (-1)
  end.

(** The scheduler runs the [n]-th goroutine that has been started and has
    not run yet. *)
Definition schedule (d : Dialer E) (n : nat) (w : World E) : option (World E) :=
  match goroutines w !! n with
  | None => None
  | Some t =>
      let w0 := mkWorld (instances w) (openConns w) (outside w) (log w)
                        (take n (goroutines w) ++ drop (S n) (goroutines w)) in
      Some (snd (runTask d t w0))
  end.

(** *** Concurrent calls of [Dialer.instance] *)

(** Where a goroutine is in its call of [d.instance(connName)]: before the
    read lock, before the write lock (the read found no entry), or back
    from the call. *)
Inductive instanceCall : Type :=
  | AtRLock (connName : string)
  | AtLock (connName : string)
  | Returned (connName : string) (res : Instance + error).

Definition stepCall (d : Dialer E) (c : instanceCall) : M (World E) instanceCall :=
  match c with
  | AtRLock connName =>
      let* cached := instance_RLock connName in
      match cached with
      | Some i => ret (Returned connName (inl i))
      | None => ret (AtLock connName)
      end
  | AtLock connName =>
      let* r := instance_Lock d connName in
      ret (Returned connName r)
  | Returned connName r => ret (Returned connName r)
  end.

(** One step in the life of a dialer, next to a pool of goroutines that call
    [d.instance]: a new call starts, the call of goroutine [t] takes its
    next critical section, or, in between, a whole [Dial] runs, a connection
    is closed, or a started goroutine runs. *)
Inductive registryStep (d : Dialer E)
  : World E * list instanceCall -> World E * list instanceCall -> Prop :=
  | registry_enter w pool connName :
      registryStep d (w, pool) (w, (pool ++ [AtRLock connName])%list)
  | registry_run w pool t c c' w' :
      pool !! t = Some c ->
      stepCall d c w = (c', w') ->
      registryStep d (w, pool) (w', <[t := c']> pool)
  | registry_dial w pool instance opts res w' :
      Dial d instance opts w = (res, w') ->
      registryStep d (w, pool) (w', pool)
  | registry_close w pool ic res w' :
      instrumentedConn_Close ic w = (res, w') ->
      registryStep d (w, pool) (w', pool)
  | registry_schedule w pool n w' :
      schedule d n w = Some w' ->
      registryStep d (w, pool) (w', pool).

Inductive registrySteps (d : Dialer E)
  : World E * list instanceCall -> World E * list instanceCall -> Prop :=
  | registry_refl s : registrySteps d s s
  | registry_trans s1 s2 s3 :
      registrySteps d s1 s2 -> registryStep d s2 s3 -> registrySteps d s1 s3.
End DialerModel.

(** ** What the log of a call says *)

(** The entries that the step from [w] to [w'] added to the log. *)
Definition eventsSince {E : Type} (w w' : World E) : list Event :=
  drop (length (log w)) (log w').

Definition forceRefreshCalls (evs : list Event) : list Instance :=
  omap (fun ev => match ev with EvForceRefresh i => Some i | _ => None end) evs.

Definition dialFuncCalls (evs : list Event) : list (string * string) :=
  omap (fun ev => match ev with
                  | EvDialFunc network addr _ => Some (network, addr)
                  | _ => None
                  end) evs.

Definition connectInfoCalls (evs : list Event) : list (Instance * string) :=
  omap (fun ev => match ev with
                  | EvConnectInfo i ip _ => Some (i, ip)
                  | _ => None
                  end) evs.

Definition closeCalls (evs : list Event) : list (netConn * option error) :=
  omap (fun ev => match ev with EvClose c res => Some (c, res) | _ => None end) evs.

Definition newInstanceCalls (evs : list Event) : list string :=
  omap (fun ev => match ev with
                  | EvNewInstance connName _ => Some connName
                  | _ => None
                  end) evs.

(** The providers that [cloudsql.NewInstance] has built for [connName]. *)
Definition constructed (connName : string) (evs : list Event) : list Instance :=
  omap (fun ev => match ev with
                  | EvNewInstance cn (inl i) =>
                      if String.eqb cn connName then Some i else None
                  | _ => None
                  end) evs.

(** The open-connection counter of an instance: a missing key reads as 0. *)
Definition counter {E : Type} (w : World E) (instance : string) : Z :=
  default 0%Z (openConns w !! instance).

(** The registry invariant: the entry of an identifier is the one provider
    that has been built for it, and every call that has returned a provider
    has returned the entry. *)
Definition registryInv {E : Type} (s : World E * list instanceCall) : Prop :=
  (forall connName,
     constructed connName (log (fst s)) =
     match instances (fst s) !! connName with
     | Some i => [i]
     | None => []
     end) /\
  (forall (t : nat) connName i,
     snd s !! t = Some (Returned connName (inl i)) ->
     instances (fst s) !! connName = Some i).

(** ** The order of the sort *)

Definition srvKey (r : SRV) : N * string := (Priority r, Target r).

(** Ascending by priority, ties ascending by target, bytewise. *)
Definition keyLe (k1 k2 : N * string) : Prop :=
  (fst k1 < fst k2)%N \/ (fst k1 = fst k2 /\ String.leb (snd k1) (snd k2) = true).

Definition srvLe (a b : SRV) : Prop := keyLe (srvKey a) (srvKey b).

(** A record whose target does not parse once its trailing dots are off. *)
Definition unparseable `{ConnNameParser} (r : SRV) : Prop :=
  exists parseErr, ParseConnName (TrimRight (Target r) ".") = inr parseErr.

Fixpoint dots (n : nat) : string :=
  match n with
  | O => EmptyString
  | S n' => String "." (dots n')
  end.

Fixpoint endsWithDot (s : string) : bool :=
  match s with
  | EmptyString => false
  | String c EmptyString => Ascii.eqb c "."
  | String _ s' => endsWithDot s'
  end.

(** ** Concrete collaborators, for the examples *)

(** [strings.Split(s, ":")] *)
Fixpoint splitColon (s : string) : list string :=
  match s with
  | EmptyString => [EmptyString]
  | String c s' =>
      match splitColon s' with
      | seg :: segs =>
          if Ascii.eqb c ":" then EmptyString :: seg :: segs
          else String c seg :: segs
      | [] => []
      end
  end.

Definition nonEmpty (s : string) : bool :=
  match s with
  | EmptyString => false
  | String _ _ => true
  end.

(** Modelled from the spec: [instance.ParseConnName] is not part of the
    sources at hand; by the specification, parsing fails with a format error
    if the string does not contain exactly three colon-separated non-empty
    segments. *)
Definition specParseConnName : ConnNameParser :=
  fun s =>
    match splitColon s with
    | [p; r; n] =>
        if nonEmpty p && nonEmpty r && nonEmpty n then inl (mkConnName p r n)
        else inr (ErrExternal "invalid instance connection name")
    | _ => inr (ErrExternal "invalid instance connection name")
    end.

(** A resolver that answers from a script, one answer per query. *)
Definition scriptedResolver
  : netResolver (list (string * list SRV * option error)) :=
  fun script _ _ _ =>
    match script with
    | [] => ((EmptyString, [], Some (ErrExternal "no such host")), [])
    | answer :: rest => (answer, rest)
    end.

(** An outside world that answers from a script. *)
Record Script : Type := mkScript {
  newInstanceScript : list (Instance + error);
  connectInfoScript : (string * TLSConfig) + error;
  dialScript : netConn + error;
  keepAliveScript : option error;
  keepAlivePeriodScript : option error;
  handshakeScript : option error;
  closeScript : option error;
  clock : Z
}.

Definition scriptedCollaborators : Collaborators Script := {|
  NewInstance _ _ _ _ _ e :=
    match newInstanceScript e with
    | [] => (inr (ErrExternal "no admin API client"), e)
    | r :: rest =>
        (r, mkScript rest (connectInfoScript e) (dialScript e) (keepAliveScript e)
                     (keepAlivePeriodScript e) (handshakeScript e) (closeScript e)
                     (clock e))
    end;
  ConnectInfo _ _ e := (connectInfoScript e, e);
  ForceRefresh _ e := e;
  Instance_String _ := "my-project:us-central1:my-instance";
  SetKeepAlive _ _ e := (keepAliveScript e, e);
  SetKeepAlivePeriod _ _ e := (keepAlivePeriodScript e, e);
  Handshake _ e := (handshakeScript e, e);
  Conn_Close _ e := (closeScript e, e);
  time_Now e := (clock e, e);
  time_Since t e := ((clock e + 2000000 - t)%Z, e)
|}.

Definition scriptedDialer : Dialer Script :=
  mkDialer 1%N 30000000000%Z 2%N (mkDialCfg "PUBLIC" 30000000000%Z) "dialer-1"
           (fun _ _ e => (dialScript e, e)) None.

(** A script in which every step of a dial succeeds. *)
Definition happyScript : Script :=
  mkScript [inl 7%N] (inl ("10.0.0.1", 9%N)) (inl (TCPConn 3%N)) None None None None 0%Z.

Definition freshWorld (e : Script) : World Script := mkWorld ∅ ∅ e [] [].

Definition theInstance : string := "my-project:us-central1:my-instance".

(** Records for the examples: none parses; the one that sorts first does
    not parse and two of equal priority do. *)
Definition badRecords : list SRV :=
  [mkSRV "worse." 0 5 0; mkSRV "bad." 0 1 0].

Definition mixedRecords : list SRV :=
  [mkSRV "b:x:y." 0 10 0; mkSRV "bad." 0 1 0; mkSRV "a:x:y.." 0 10 0].

(** Scripts in which one step of a dial fails. *)
Definition connectInfoFailScript : Script :=
  mkScript [inl 7%N] (inr (ErrExternal "refresh failed")) (inl (TCPConn 3%N))
           None None None None 0%Z.

Definition tcpFailScript : Script :=
  mkScript [inl 7%N] (inl ("10.0.0.1", 9%N)) (inr (ErrExternal "connection refused"))
           None None None None 0%Z.

Definition keepAliveFailScript : Script :=
  mkScript [inl 7%N] (inl ("10.0.0.1", 9%N)) (inl (TCPConn 3%N))
           (Some (ErrExternal "bad descriptor")) None None None 0%Z.

Definition keepAlivePeriodFailScript : Script :=
  mkScript [inl 7%N] (inl ("10.0.0.1", 9%N)) (inl (TCPConn 3%N))
           None (Some (ErrExternal "bad descriptor")) None None 0%Z.

Definition handshakeFailScript : Script :=
  mkScript [inl 7%N] (inl ("10.0.0.1", 9%N)) (inl (TCPConn 3%N))
           None None (Some (ErrExternal "bad certificate"))
           (Some (ErrExternal "already closed")) 0%Z.

(** A script in which the first construction of a provider fails and the
    next two succeed. *)
Definition retryScript : Script :=
  mkScript [inr (ErrExternal "no admin API client"); inl 7%N; inl 8%N]
           (inl ("10.0.0.1", 9%N)) (inl (TCPConn 3%N)) None None None None 0%Z.

(** A run of a pool of calls of [d.instance]: the goroutines that take their
    next critical section, in order. *)
Fixpoint runPool {E : Type} `{Collaborators E} (d : Dialer E) (picks : list nat)
    (s : World E * list instanceCall) : World E * list instanceCall :=
  match picks with
  | [] => s
  | t :: rest =>
      match snd s !! t with
      | None => runPool d rest s
      | Some c =>
          let (c', w') := stepCall d c (fst s) in
          runPool d rest (w', <[t := c']> (snd s))
      end
  end.

(** A dial of [theInstance] with the default options, from a world in which
    nothing has happened yet. *)
Definition dialWith (e : Script) : (instrumentedConn + error) * World Script :=
  @Dial _ scriptedCollaborators scriptedDialer theInstance [] (freshWorld e).

(** Three goroutines call [d.instance] for the same identifier at once. *)
Definition racingCalls : World Script * list instanceCall :=
  (freshWorld retryScript,
   [AtRLock theInstance; AtRLock theInstance; AtRLock theInstance]).

(** The order the specification asks of a successful [Dial]: when [Dial]
    returns, the counter of the identifier is one more than it was. *)
Definition incrementedAtReturn {E : Type} `{Collaborators E} (d : Dialer E)
    (instance : string) (opts : list DialOption) (w : World E) : Prop :=
  forall ic w',
    Dial d instance opts w = (inl ic, w') ->
    counter w' instance = wrap64 (counter w instance + 1).

(** ** More of what the log of a call says *)

Definition startedSpans (evs : list Event) : list string :=
  omap (fun ev => match ev with EvStartSpan span _ => Some span | _ => None end) evs.

Definition endedSpans (evs : list Event) : list (string * option error) :=
  omap (fun ev => match ev with
                  | EvEndSpan span err => Some (span, err)
                  | _ => None
                  end) evs.

Definition keepAliveCalls (evs : list Event) : list (netConn * bool) :=
  omap (fun ev => match ev with
                  | EvSetKeepAlive c keepalive _ => Some (c, keepalive)
                  | _ => None
                  end) evs.

Definition keepAlivePeriodCalls (evs : list Event) : list (netConn * Z) :=
  omap (fun ev => match ev with
                  | EvSetKeepAlivePeriod c period _ => Some (c, period)
                  | _ => None
                  end) evs.

Definition handshakeCalls (evs : list Event) : list netConn :=
  omap (fun ev => match ev with EvHandshake c _ => Some c | _ => None end) evs.

(** The configuration of a call of [Dial]: the options of the call applied,
    in order, to a copy of the default configuration of the dialer. *)
Definition dialConfig {E : Type} (d : Dialer E) (opts : list DialOption) : dialCfg :=
  fold_left (fun cfg opt => opt cfg) opts (defaultDialCfg d).

(** ** What a call does to the outside world *)

(** The calls of the collaborators that take a call of [Dial] from the world
    [w] to the dial function: the clock gives [startTime]; the provider [i]
    is the entry of the registry, or is built by [cloudsql.NewInstance]
    when there is none; [ConnectInfo] on [i] gives [host] and [tlsCfg] and
    leaves the outside world [e0]. *)
Definition reachesConnect {E : Type} `{Collaborators E} (d : Dialer E)
    (instance : string) (opts : list DialOption) (w : World E) (startTime : Z)
    (i : Instance) (host : string) (tlsCfg : TLSConfig) (e0 : E) : Prop :=
  exists ea eb,
    time_Now (outside w) = (startTime, ea) /\
    (instances w !! instance = Some i /\ eb = ea \/
     instances w !! instance = None /\
     NewInstance instance (sqladmin d) (key d) (refreshTimeout d) (iamTokenSource d) ea
     = (inl i, eb)) /\
    ConnectInfo i (ipType (dialConfig d opts)) eb = (inl (host, tlsCfg), e0).

(** The calls that take a call of [Dial] on to the handshake: the dial
    function gives the connection [conn] on the address of [host] and port
    3307; when [conn] is a TCP connection, keep-alive is enabled on it and
    its period is set to the one of the configuration; the outside world is
    then [eh]. *)
Definition reachesHandshake {E : Type} `{Collaborators E} (d : Dialer E)
    (instance : string) (opts : list DialOption) (w : World E) (startTime : Z)
    (i : Instance) (conn : netConn) (tlsCfg : TLSConfig) (eh : E) : Prop :=
  exists host e0 ed,
    reachesConnect d instance opts w startTime i host tlsCfg e0 /\
    dialFunc d "tcp" (JoinHostPort host serverProxyPort) e0 = (inl conn, ed) /\
    match conn with
    | TCPConn _ =>
        exists ek,
          SetKeepAlive conn true ed = (None, ek) /\
          SetKeepAlivePeriod conn (tcpKeepAlive (dialConfig d opts)) ek = (None, eh)
    | _ => eh = ed
    end.

(** ** Runs of the scheduler *)

(** The goroutines picked, in order: each pick is a position in the list of
    the goroutines that have not run yet. *)
Fixpoint scheduleAll {E : Type} (d : Dialer E) (picks : list nat) (w : World E)
  : option (World E) :=
  match picks with
  | [] => Some w
  | n :: rest =>
      match schedule d n w with
      | None => None
      | Some w' => scheduleAll d rest w'
      end
  end.

(** The counter a goroutine updates, and by how much. *)
Definition taskInstance (t : Task) : string :=
  match t with
  | incOpenConns instance _ => instance
  | decOpenConns instance => instance
  end.

Definition taskDelta (t : Task) : Z :=
  match t with
  | incOpenConns _ _ => 1%Z
  | decOpenConns _ => (-1)%Z
  end.

Definition touches (instance : string) (tasks : list Task) : bool :=
  existsb (fun t => String.eqb (taskInstance t) instance) tasks.

Fixpoint netDelta (instance : string) (tasks : list Task) : Z :=
  match tasks with
  | [] => 0%Z
  | t :: rest =>
      ((if String.eqb (taskInstance t) instance then taskDelta t else 0)
       + netDelta instance rest)%Z
  end.

Definition isInt64 (z : Z) : Prop := (- 2 ^ 63 <= z < 2 ^ 63)%Z.

(** Where a counter stands once the goroutines [ran] have run, in any order,
    from the value [x]. *)
Definition counterAfter (instance : string) (ran : list Task) (x : Z) : Z :=
  if touches instance ran then wrap64 (x + netDelta instance ran) else x.

(** ** The life of a dialer *)

(** [option.ClientOption]: the user agent option that [NewDialer] sets, and
    the options a caller adds, by name. *)
Inductive ClientOption : Type :=
  | WithUserAgent (ua : string)
  | ClientOptionOf (id : N).

Definition versionString : string := "0.1.0-dev".
Definition userAgent : string := "cloud-sql-go-connector/" ++ versionString.

(** [defaultTCPKeepAlive], and the refresh timeout [NewDialer] starts from:
    30 seconds, in nanoseconds. *)
Definition defaultTCPKeepAlive : Z := (30 * 1000000000)%Z.
Definition defaultRefreshTimeout : Z := (30 * 1000000000)%Z.

(** The nil pointer, for the pointers that are embedded as addresses. *)
Definition nilPtr : N := 0%N.

(** The log of the calls that [NewDialer], [getDefaultKeys], the reporter
    and [Dialer.Close] make to their collaborators. *)
Inductive LifeEvent : Type :=
  | LvGenerateKey (bits : Z) (key : N) (err : option error)
  | LvDefaultTokenSource (scope : string) (res : N + error)
  | LvNewService (opts : list ClientOption) (res : N + error)
  | LvNewMetricsCollector
  | LvUUID (id : string)
  | LvGoReportOpenConns (dialerID : string)
  | LvInstanceClose (i : Instance)
  | LvRecordOpenConnections (conns : Z) (instance dialerID : string).

(** The collaborators of the life of a dialer over an outside world [E]:
    [rsa.GenerateKey], [google.DefaultTokenSource], [sqladmin.NewService],
    [trace.NewMetricsCollector], [uuid.New().String()], [proxy.Dial], the
    [Close] of a provider, whether the channel [ctx.Done()] is ready, and
    the constants [cloudsql.PublicIP] and [sqladmin.SqlserviceAdminScope]. *)
Class Lifecycle (E : Type) : Type := {
  rsa_GenerateKey : Z -> E -> (N * option error) * E;
  google_DefaultTokenSource : string -> E -> (N + error) * E;
  sqladmin_NewService : list ClientOption -> E -> (N + error) * E;
  trace_NewMetricsCollector : E -> E;
  uuid_New : E -> string * E;
  proxy_Dial : string -> string -> E -> (netConn + error) * E;
  Instance_Close : Instance -> E -> E;
  ctx_Done : E -> bool;
  PublicIP : string;
  SqlserviceAdminScope : string
}.

(** The package variables [defaultKey], [defaultKeyErr] and [keyOnce], with
    the outside world and the log. *)
Record Package (E : Type) : Type := mkPackage {
  keyOnceDone : bool;
  defaultKey : N;
  defaultKeyErr : option error;
  pkgOutside : E;
  pkgLog : list LifeEvent
}.
Arguments mkPackage {E} _ _ _ _ _.
Arguments keyOnceDone {E} _.
Arguments defaultKey {E} _.
Arguments defaultKeyErr {E} _.
Arguments pkgOutside {E} _.
Arguments pkgLog {E} _.

(** The struct [dialerConfig], by the fields [NewDialer] reads and writes. *)
Record dialerConfig (E : Type) : Type := mkDialerConfig {
  cfg_rsaKey : N;
  cfg_sqladminOpts : list ClientOption;
  cfg_dialOpts : list DialOption;
  cfg_dialFunc : string -> string -> E -> (netConn + error) * E;
  cfg_refreshTimeout : Z;
  cfg_useIAMAuthN : bool;
  cfg_tokenSource : option N;
  cfg_err : option error
}.
Arguments mkDialerConfig {E} _ _ _ _ _ _ _ _.
Arguments cfg_rsaKey {E} _.
Arguments cfg_sqladminOpts {E} _.
Arguments cfg_dialOpts {E} _.
Arguments cfg_dialFunc {E} _ _ _ _.
Arguments cfg_refreshTimeout {E} _.
Arguments cfg_useIAMAuthN {E} _.
Arguments cfg_tokenSource {E} _.
Arguments cfg_err {E} _.

(** A [DialerOption] is a function on a pointer to a [dialerConfig]. *)
Definition DialerOption (E : Type) : Type := dialerConfig E -> dialerConfig E.

(** The errors of [NewDialer]: the error an option has left in the
    configuration, or [fmt.Errorf] with a format that has one [%v] verb. *)
Inductive dialerError : Type :=
  | OfOption (e : error)
  | Errorf_v (format : string) (v : error).

(** The [Dialer] that [NewDialer] builds: the fixed fields, the two maps
    and whether the channel [done] is closed. *)
Record DialerValue (E : Type) : Type := mkDialerValue {
  dv_dialer : Dialer E;
  dv_instances : gmap string Instance;
  dv_openConns : gmap string Z;
  dv_doneClosed : bool
}.
Arguments mkDialerValue {E} _ _ _ _.
Arguments dv_dialer {E} _.
Arguments dv_instances {E} _.
Arguments dv_openConns {E} _.
Arguments dv_doneClosed {E} _.

(** A dialer at work: its world, whether its channel [done] is closed, and
    the log. *)
Record Runtime (E : Type) : Type := mkRuntime {
  world : World E;
  doneClosed : bool;
  life : list LifeEvent
}.
Arguments mkRuntime {E} _ _ _.
Arguments world {E} _.
Arguments doneClosed {E} _.
Arguments life {E} _.

(** How a call that can panic ends. *)
Inductive outcome : Type :=
  | Returns
  | Panics (msg : string).

Section LifecycleModel.
Context {E : Type} `{Lifecycle E}.

Definition callPkg {A : Type} (f : E -> A * E) (ev : A -> LifeEvent)
  : M (Package E) A :=
  fun p =>
    let (a, e') := f (pkgOutside p) in
    (a, mkPackage (keyOnceDone p) (defaultKey p) (defaultKeyErr p) e'
                  (pkgLog p ++ [ev a])).

(** *** [getDefaultKeys] *)

(** [keyOnce.Do] runs the function literal on the first call only. *)
Definition getDefaultKeys : M (Package E) (N * option error) :=
  fun p =>
    if keyOnceDone p then ((defaultKey p, defaultKeyErr p), p)
    else
      let '((k, err), e') := rsa_GenerateKey 2048 (pkgOutside p) in
      ((k, err), mkPackage true k err e' (pkgLog p ++ [LvGenerateKey 2048 k err])).

(** *** [NewDialer] *)

Definition defaultDialerConfig : dialerConfig E :=
  mkDialerConfig nilPtr [WithUserAgent userAgent] [] proxy_Dial
                 defaultRefreshTimeout false None None.

(** The loop over the options: it stops at the first option that leaves an
    error in the configuration. *)
Fixpoint applyDialerOptions (opts : list (DialerOption E)) (cfg : dialerConfig E)
  : dialerConfig E + error :=
  match opts with
  | [] => inl cfg
  | opt :: rest =>
      let cfg' := opt cfg in
      match cfg_err cfg' with
      | Some e => inr e
      | None => applyDialerOptions rest cfg'
      end
  end.

Definition NewDialer (opts : list (DialerOption E))
  : M (Package E) (DialerValue E + dialerError) :=
  match applyDialerOptions opts defaultDialerConfig with
  | inr e => ret (inr (OfOption e))
  | inl cfg =>
      let* ts :=
        if cfg_useIAMAuthN cfg && negb (bool_decide (is_Some (cfg_tokenSource cfg)))
        then
          let* r := callPkg (google_DefaultTokenSource SqlserviceAdminScope)
                            (LvDefaultTokenSource SqlserviceAdminScope) in
          match r with
          | inr err => ret (inr (Errorf_v "failed to create token source: %v" err))
          | inl ts => ret (inl (Some ts))
          end
        else ret (inl (cfg_tokenSource cfg)) in
      match ts with
      | inr err => ret (inr err)
      | inl tokenSource =>
          let tokenSource := if cfg_useIAMAuthN cfg then tokenSource else None in
          let* rsaKey :=
            if N.eqb (cfg_rsaKey cfg) nilPtr
            then
              let* (k, err) := getDefaultKeys in
              match err with
              | Some err => ret (inr (Errorf_v "failed to generate RSA keys: %v" err))
              | None => ret (inl k)
              end
            else ret (inl (cfg_rsaKey cfg)) in
          match rsaKey with
          | inr err => ret (inr err)
          | inl rsaKey =>
              let* client := callPkg (sqladmin_NewService (cfg_sqladminOpts cfg))
                                     (LvNewService (cfg_sqladminOpts cfg)) in
              match client with
              | inr err =>
                  ret (inr (Errorf_v "failed to create sqladmin client: %v" err))
              | inl client =>
                  let dialCfg :=
                    fold_left (fun c opt => opt c) (cfg_dialOpts cfg)
                              (mkDialCfg PublicIP defaultTCPKeepAlive) in
                  let* _ := callPkg (fun e => (tt, trace_NewMetricsCollector e))
                                    (fun _ => LvNewMetricsCollector) in
                  let* id := callPkg uuid_New LvUUID in
                  let d := mkDialer rsaKey (cfg_refreshTimeout cfg) client dialCfg id
                                    (cfg_dialFunc cfg) tokenSource in
                  let* _ := callPkg (fun e => (tt, e))
                                    (fun _ => LvGoReportOpenConns id) in
                  ret (inl (mkDialerValue d ∅ ∅ false))
              end
          end
      end
  end.

(** *** [Dialer.reportOpenConns] *)

(** The snapshot of one tick: a record per entry of [d.openConns]. The order
    of a [range] over a Go map is not fixed; the embedding takes the order
    of [map_to_list], and the properties are stated up to the order. *)
Definition snapshot (d : Dialer E) (w : World E) : list LifeEvent :=
  (fun ic => LvRecordOpenConnections (snd ic) (fst ic) (dialerID d))
    <$> map_to_list (openConns w).

(** The body of the loop over the ticks: [false] when the loop returns. *)
Definition reportTick (d : Dialer E) : M (Runtime E) bool :=
  fun rt =>
    if doneClosed rt then (false, rt)
    else if ctx_Done (outside (world rt)) then (false, rt)
    else (true, mkRuntime (world rt) (doneClosed rt)
                          (life rt ++ snapshot d (world rt))).

(** [reportOpenConns] over the ticks that the ticker delivers. *)
Fixpoint reportOpenConns (d : Dialer E) (ticks : nat) : M (Runtime E) unit :=
  match ticks with
  | O => ret tt
  | S ticks' =>
      let* goOn := reportTick d in
      if goOn then reportOpenConns d ticks' else ret tt
  end.

(** *** [Dialer.Close] *)

Definition closeInstance (rt : Runtime E) (i : Instance) : Runtime E :=
  mkRuntime (mkWorld (instances (world rt)) (openConns (world rt))
                     (Instance_Close i (outside (world rt)))
                     (log (world rt)) (goroutines (world rt)))
            (doneClosed rt) (life rt ++ [LvInstanceClose i]).

(** [close(d.done)] panics when the channel is closed already. *)
Definition Dialer_Close : M (Runtime E) outcome :=
  fun rt =>
    let rt1 := fold_left closeInstance (snd <$> map_to_list (instances (world rt))) rt in
    if doneClosed rt1 then (Panics "close of closed channel", rt1)
    else (Returns, mkRuntime (world rt1) true (life rt1)).
End LifecycleModel.

(** The outside world once the providers [closed] have been closed, in that
    order. *)
Definition closedProviders {E : Type} `{Lifecycle E} (closed : list Instance) (e : E) : E :=
  fold_left (fun e' i => Instance_Close i e') closed e.

(** What the log of the life of a dialer says. *)
Definition keyGenerations (evs : list LifeEvent) : list (N * option error) :=
  omap (fun ev => match ev with
                  | LvGenerateKey _ k err => Some (k, err)
                  | _ => None
                  end) evs.

Definition tokenSourceCalls (evs : list LifeEvent) : list (N + error) :=
  omap (fun ev => match ev with
                  | LvDefaultTokenSource _ res => Some res
                  | _ => None
                  end) evs.

Definition newServiceCalls (evs : list LifeEvent) : list (list ClientOption) :=
  omap (fun ev => match ev with LvNewService opts _ => Some opts | _ => None end) evs.

Definition instanceCloses (evs : list LifeEvent) : list Instance :=
  omap (fun ev => match ev with LvInstanceClose i => Some i | _ => None end) evs.

Definition reportersStarted (evs : list LifeEvent) : list string :=
  omap (fun ev => match ev with LvGoReportOpenConns id => Some id | _ => None end) evs.

(** The entries that a step has added to a log of this kind. *)
Definition lifeSince (before after : list LifeEvent) : list LifeEvent :=
  drop (length before) after.

(** Collaborators for the examples: every call succeeds; the context is
    cancelled when the clock of the script is negative. *)
Definition scriptedLifecycle : Lifecycle Script := {|
  rsa_GenerateKey _ e := ((11%N, None), e);
  google_DefaultTokenSource _ e := (inl 12%N, e);
  sqladmin_NewService _ e := (inl 13%N, e);
  trace_NewMetricsCollector e := e;
  uuid_New e := ("dialer-1", e);
  proxy_Dial _ _ e := (dialScript e, e);
  Instance_Close _ e := e;
  ctx_Done e := (clock e <? 0)%Z;
  PublicIP := "PUBLIC";
  SqlserviceAdminScope := "https://www.googleapis.com/auth/sqlservice.admin"
|}.

(** Collaborators for the examples, with a key generator that fails. *)
Definition noKeyLifecycle : Lifecycle Script := {|
  rsa_GenerateKey _ e := ((nilPtr, Some (ErrExternal "no entropy")), e);
  google_DefaultTokenSource _ e := (inl 12%N, e);
  sqladmin_NewService _ e := (inl 13%N, e);
  trace_NewMetricsCollector e := e;
  uuid_New e := ("dialer-1", e);
  proxy_Dial _ _ e := (dialScript e, e);
  Instance_Close _ e := e;
  ctx_Done e := (clock e <? 0)%Z;
  PublicIP := "PUBLIC";
  SqlserviceAdminScope := "https://www.googleapis.com/auth/sqlservice.admin"
|}.

Definition freshPackage : Package Script := mkPackage false nilPtr None happyScript [].

(** Options for the examples. *)
Definition withIAMAuthN : DialerOption Script :=
  fun cfg => mkDialerConfig (cfg_rsaKey cfg) (cfg_sqladminOpts cfg) (cfg_dialOpts cfg)
                            (cfg_dialFunc cfg) (cfg_refreshTimeout cfg) true
                            (cfg_tokenSource cfg) (cfg_err cfg).

Definition withTokenSource (ts : N) : DialerOption Script :=
  fun cfg => mkDialerConfig (cfg_rsaKey cfg) (cfg_sqladminOpts cfg) (cfg_dialOpts cfg)
                            (cfg_dialFunc cfg) (cfg_refreshTimeout cfg)
                            (cfg_useIAMAuthN cfg) (Some ts) (cfg_err cfg).

Definition withRSAKey (k : N) : DialerOption Script :=
  fun cfg => mkDialerConfig k (cfg_sqladminOpts cfg) (cfg_dialOpts cfg)
                            (cfg_dialFunc cfg) (cfg_refreshTimeout cfg)
                            (cfg_useIAMAuthN cfg) (cfg_tokenSource cfg) (cfg_err cfg).

Definition withBadCredentials : DialerOption Script :=
  fun cfg => mkDialerConfig (cfg_rsaKey cfg) (cfg_sqladminOpts cfg) (cfg_dialOpts cfg)
                            (cfg_dialFunc cfg) (cfg_refreshTimeout cfg)
                            (cfg_useIAMAuthN cfg) (cfg_tokenSource cfg)
                            (Some (ErrExternal "cannot read credentials file")).

(** A dialer at work, for the examples: two providers in the registry, one
    open connection on the first. *)
Definition busyRuntime : Runtime Script :=
  mkRuntime (mkWorld (<["p:r:one" := 7%N]> (<["p:r:two" := 8%N]> ∅))
                     (<["p:r:one" := 1%Z]> (<["p:r:two" := 0%Z]> ∅))
                     happyScript [] [])
            false [].

(** More fixtures for the examples. *)

(** A script in which the dial function returns a connection that is not a
    TCP connection. *)
Definition proxyScript : Script :=
  mkScript [inl 7%N] (inl ("10.0.0.1", 9%N)) (inl (OtherConn 4%N))
           None None None None 0%Z.

(** The same records as [mixedRecords], in another order and with other
    weights and ports. *)
Definition shuffledRecords : list SRV :=
  [mkSRV "a:x:y.." 443 10 5; mkSRV "b:x:y." 3307 10 1; mkSRV "bad." 1 1 9].

(** The log of [dialWith]. *)
Definition dialLog (e : Script) : list Event :=
  eventsSince (freshWorld e) (snd (dialWith e)).

(** The connection that [dialWith happyScript] returns, and the world once
    the caller has closed it. *)
Definition happyConn : instrumentedConn :=
  mkInstrumentedConn (TLSClient (TCPConn 3) 9%N) (decOpenConns theInstance).

Definition closedWorld : World Script :=
  snd (@instrumentedConn_Close _ scriptedCollaborators happyConn
         (snd (dialWith happyScript))).

Definition scheduled (picks : list nat) (w : World Script) : World Script :=
  default w (scheduleAll scriptedDialer picks w).

(** Collaborators for the examples, with no default token source. *)
Definition noTokenLifecycle : Lifecycle Script := {|
  rsa_GenerateKey _ e := ((11%N, None), e);
  google_DefaultTokenSource _ e := (inr (ErrExternal "no default credentials"), e);
  sqladmin_NewService _ e := (inl 13%N, e);
  trace_NewMetricsCollector e := e;
  uuid_New e := ("dialer-1", e);
  proxy_Dial _ _ e := (dialScript e, e);
  Instance_Close _ e := e;
  ctx_Done e := (clock e <? 0)%Z;
  PublicIP := "PUBLIC";
  SqlserviceAdminScope := "https://www.googleapis.com/auth/sqlservice.admin"
|}.

(** The dialer that a call of [NewDialer] has built. *)
Definition built (L : Lifecycle Script) (opts : list (DialerOption Script))
    (p : Package Script) : DialerValue Script :=
  match fst (@NewDialer _ L opts p) with
  | inl dv => dv
  | inr _ => mkDialerValue scriptedDialer ∅ ∅ true
  end.

Definition closedRuntime : Runtime Script :=
  snd (@Dialer_Close _ scriptedLifecycle busyRuntime).

(** * Properties *)

(** ** The order of the sort is a total order on the keys *)

Lemma ascii_compare_refl (a : ascii) : Ascii.compare a a = Eq.
Proof. unfold Ascii.compare. apply N.compare_refl. Qed.

Lemma ascii_compare_Lt_trans (a b c : ascii) :
  Ascii.compare a b = Lt -> Ascii.compare b c = Lt -> Ascii.compare a c = Lt.
Proof. unfold Ascii.compare. rewrite !N.compare_lt_iff. lia. Qed.

Lemma string_compare_refl (s : string) : String.compare s s = Eq.
Proof.
  induction s as [|c s IH]; simpl; [reflexivity|].
  now rewrite ascii_compare_refl.
Qed.

Lemma string_compare_Lt_trans (a b c : string) :
  String.compare a b = Lt -> String.compare b c = Lt -> String.compare a c = Lt.
Proof.
  revert b c. induction a as [|x a IH]; intros [|y b] [|z c]; simpl;
    try congruence.
  destruct (Ascii.compare x y) eqn:Hxy; try discriminate;
    destruct (Ascii.compare y z) eqn:Hyz; try discriminate; intros Hab Hbc.
  - apply Ascii.compare_eq_iff in Hxy, Hyz. subst.
    rewrite ascii_compare_refl. eauto.
  - apply Ascii.compare_eq_iff in Hxy. subst. now rewrite Hyz.
  - apply Ascii.compare_eq_iff in Hyz. subst. now rewrite Hxy.
  - now rewrite (ascii_compare_Lt_trans x y z).
Qed.

Lemma string_leb_cases (a b : string) :
  String.leb a b = true <-> a = b \/ String.compare a b = Lt.
Proof.
  unfold String.leb. destruct (String.compare a b) eqn:Hc.
  - apply String.compare_eq_iff in Hc. tauto.
  - tauto.
  - split; [discriminate|]. intros [->|]; [|discriminate].
    rewrite string_compare_refl in Hc. discriminate.
Qed.

Lemma string_leb_trans (a b c : string) :
  String.leb a b = true -> String.leb b c = true -> String.leb a c = true.
Proof.
  rewrite !string_leb_cases. intros [->|Hab] [->|Hbc]; auto.
  right. eapply string_compare_Lt_trans; eassumption.
Qed.

Lemma string_ltb_false_leb (a b : string) :
  String.ltb b a = false <-> String.leb a b = true.
Proof.
  unfold String.ltb, String.leb. rewrite (String.compare_antisym b a).
  destruct (String.compare a b); simpl; split; congruence.
Qed.

Lemma string_ltb_leb (a b : string) :
  String.ltb a b = true -> String.leb a b = true.
Proof.
  unfold String.ltb, String.leb. destruct (String.compare a b); congruence.
Qed.

#[local] Instance keyLe_trans : Transitive keyLe.
Proof.
  intros [p1 t1] [p2 t2] [p3 t3]. unfold keyLe. simpl.
  intros [H12|[H12 L12]] [H23|[H23 L23]]; try (left; lia).
  right. split; [lia|]. eapply string_leb_trans; eassumption.
Qed.

#[local] Instance keyLe_antisym : AntiSymm (=) keyLe.
Proof.
  intros [p1 t1] [p2 t2]. unfold keyLe. simpl.
  intros [H12|[H12 L12]] [H21|[H21 L21]]; try lia.
  subst. f_equal. now apply String.leb_antisym.
Qed.

#[local] Instance srvLe_trans : Transitive srvLe.
Proof. intros a b c. unfold srvLe. apply keyLe_trans. Qed.

Lemma less_false_srvLe (a b : SRV) : less b a = false <-> srvLe a b.
Proof.
  unfold less, srvLe, keyLe, srvKey. simpl.
  destruct (N.eqb_spec (Priority b) (Priority a)) as [Heq|Hne].
  - rewrite string_ltb_false_leb. split; [intros; right; auto|].
    intros [Hlt|[_ Hle]]; [lia|assumption].
  - rewrite N.ltb_ge. split; [intros; left; lia|].
    intros [Hlt|[Heq _]]; [lia|congruence].
Qed.

Lemma less_true_srvLe (a b : SRV) : less a b = true -> srvLe a b.
Proof.
  unfold less, srvLe, keyLe, srvKey. simpl.
  destruct (N.eqb_spec (Priority a) (Priority b)) as [Heq|Hne].
  - intros Hlt. right. split; [assumption|]. now apply string_ltb_leb.
  - rewrite N.ltb_lt. now left.
Qed.

(** ** [sortSlice] sorts *)

Lemma insertSRV_Permutation (r : SRV) (l : list SRV) :
  insertSRV r l ≡ₚ r :: l.
Proof.
  induction l as [|x xs IH]; simpl; [reflexivity|].
  destruct (less x r); [|reflexivity].
  rewrite IH. apply Permutation_swap.
Qed.

Lemma sortSlice_Permutation (l : list SRV) : sortSlice l ≡ₚ l.
Proof.
  induction l as [|r rest IH]; simpl; [reflexivity|].
  now rewrite insertSRV_Permutation, IH.
Qed.

Lemma insertSRV_StronglySorted (r : SRV) (l : list SRV) :
  StronglySorted srvLe l -> StronglySorted srvLe (insertSRV r l).
Proof.
  induction 1 as [|x xs Hxs IH Hx]; simpl.
  - repeat constructor.
  - destruct (less x r) eqn:Hless.
    + constructor; [assumption|].
      rewrite insertSRV_Permutation. constructor; [|assumption].
      now apply less_true_srvLe.
    + apply less_false_srvLe in Hless.
      constructor; [now constructor|].
      constructor; [assumption|].
      eapply Forall_impl; [exact Hx|]. intros y Hy. simpl in Hy.
      now transitivity x.
Qed.

Lemma sortSlice_StronglySorted (l : list SRV) : StronglySorted srvLe (sortSlice l).
Proof.
  induction l as [|r rest IH]; simpl; [constructor|].
  now apply insertSRV_StronglySorted.
Qed.

(** Two ways of sorting the same records agree on the targets, in order. *)
Lemma sorted_targets_unique (l1 l2 : list SRV) :
  l1 ≡ₚ l2 -> StronglySorted srvLe l1 -> StronglySorted srvLe l2 ->
  Target <$> l1 = Target <$> l2.
Proof.
  intros Hperm H1 H2.
  assert (srvKey <$> l1 = srvKey <$> l2) as Hkeys.
  { apply (StronglySorted_unique keyLe).
    - eapply StronglySorted_fmap; [|exact H1]. auto.
    - eapply StronglySorted_fmap; [|exact H2]. auto.
    - now apply fmap_Permutation. }
  assert (Target <$> l1 = snd <$> (srvKey <$> l1)) as -> by
    (rewrite <- list_fmap_compose; reflexivity).
  assert (Target <$> l2 = snd <$> (srvKey <$> l2)) as -> by
    (rewrite <- list_fmap_compose; reflexivity).
  now rewrite Hkeys.
Qed.

(** ** The loop of [queryDNS] *)

Section ResolverFacts.
Context `{ConnNameParser} {R : Type} `{netResolver R}.

Lemma parseRecords_targets (domainName : string) (l1 l2 : list SRV)
    (perr : option error) :
  Target <$> l1 = Target <$> l2 ->
  parseRecords domainName l1 perr = parseRecords domainName l2 perr.
Proof.
  revert l2 perr. induction l1 as [|a l1 IH]; intros [|b l2] perr Heq;
    try discriminate; [reflexivity|].
  simpl in Heq. injection Heq as Hab Hrest. simpl. rewrite Hab.
  destruct (ParseConnName (TrimRight (Target b) ".")); auto.
Qed.

Lemma parseRecords_found (domainName : string) (skipped : list SRV)
    (rec : SRV) (rest : list SRV) (cn : ConnName) (perr : option error) :
  Forall unparseable skipped ->
  ParseConnName (TrimRight (Target rec) ".") = inl cn ->
  parseRecords domainName (skipped ++ rec :: rest)%list perr = inl cn.
Proof.
  intros Hskip Hrec. revert perr.
  induction Hskip as [|x xs [pe Hx] _ IH]; intros perr; simpl.
  - now rewrite Hrec.
  - rewrite Hx. apply IH.
Qed.

Lemma parseRecords_none_valid (domainName : string) (init : list SRV)
    (rec : SRV) (parseErr : error) (perr : option error) :
  Forall unparseable init ->
  ParseConnName (TrimRight (Target rec) ".") = inr parseErr ->
  parseRecords domainName (init ++ [rec])%list perr =
  inr (Some (Errorf_q_v "unable to parse SRV for %q: %v" domainName parseErr)).
Proof.
  intros Hinit Hrec. revert perr.
  induction Hinit as [|x xs [pe Hx] _ IH]; intros perr; simpl.
  - now rewrite Hrec.
  - rewrite Hx. apply IH.
Qed.

Lemma parseRecords_some_valid (domainName : string) (l : list SRV)
    (perr : option error) :
  Exists (fun rec => exists cn, ParseConnName (TrimRight (Target rec) ".") = inl cn) l ->
  exists rec cn,
    In rec l /\ ParseConnName (TrimRight (Target rec) ".") = inl cn /\
    parseRecords domainName l perr = inl cn.
Proof.
  intros Hex. revert perr.
  induction l as [|x xs IH]; intros perr; [inversion Hex|]. simpl.
  destruct (ParseConnName (TrimRight (Target x) ".")) as [cn|pe] eqn:Hx.
  - exists x, cn. auto.
  - inversion Hex as [? ? [cn Hcn]|? ? Hxs]; subst; [congruence|].
    destruct (IH Hxs (Some (Errorf_q_v "unable to parse SRV for %q: %v" domainName pe)))
      as (rec & cn & Hin & Hp & Hres).
    exists rec, cn. auto.
Qed.

(** The result of [queryDNS] does not depend on how [sort.Slice] orders
    records that compare equal: every function that sorts by [less] gives
    the same result as the insertion sort of the embedding. *)
Lemma queryDNS_sort_independent (sort : list SRV -> list SRV)
    (domainName : string) (r : DNSInstanceConnectionNameResolver R) :
  (forall l, sort l ≡ₚ l /\ StronglySorted srvLe (sort l)) ->
  queryDNSWith sort domainName r = queryDNS domainName r.
Proof.
  intros Hsort. unfold queryDNS, queryDNSWith, bind, ret, callLookupSRV.
  destruct (LookupSRV (dnsResolver r) EmptyString EmptyString domainName)
    as [[[cname records] err] dns'].
  unfold selectRecord.
  rewrite (parseRecords_targets domainName (sort records) (sortSlice records)).
  - reflexivity.
  - destruct (Hsort records) as [Hperm Hsorted].
    apply sorted_targets_unique;
      [now rewrite Hperm, sortSlice_Permutation|assumption|].
    apply sortSlice_StronglySorted.
Qed.
End ResolverFacts.

Lemma srvLe_refl (a : SRV) : srvLe a a.
Proof.
  right. split; [reflexivity|]. apply string_leb_cases. now left.
Qed.

Lemma TrimRight_dots (s : string) :
  exists n, s = TrimRight s "." ++ dots n /\ endsWithDot (TrimRight s ".") = false.
Proof.
  induction s as [|c s (n & Hs & Hend)]; [exists O; auto|]. simpl.
  destruct (TrimRight s ".") as [|d t] eqn:Htrim.
  - change (s = dots n) in Hs.
    destruct (Ascii.eqb_spec c ".") as [->|Hc].
    + exists (S n). split; [|reflexivity].
      change (String "." s = String "." (dots n)). now rewrite <- Hs.
    + exists n. split; [|now apply Ascii.eqb_neq].
      change (String c s = String c (dots n)). now rewrite <- Hs.
  - exists n. split; [|exact Hend].
    change (String c s = String c (String d t ++ dots n)). now rewrite <- Hs.
Qed.

(** ** The resolver *)

Section ResolverClaims.
Context `{ConnNameParser} {R : Type} `{netResolver R}.

(** C1. When no record of the SRV answer parses, [queryDNS] fails, and
    the error is chosen in three tiers: the error of the lookup wrapped
    with the domain name if there is one; otherwise the parse error of the
    record that comes last in the sort order, wrapped with the domain name,
    if there is a record; otherwise the error "no valid SRV records found"
    for the domain name. When some record parses, [queryDNS] succeeds with
    the identifier of a record, whether or not the lookup also reported an
    error. *)
Theorem queryDNS_error_priority (r : DNSInstanceConnectionNameResolver R)
    (domainName cname : string) (records : list SRV) (err : option error)
    (dns' : R) :
  LookupSRV (dnsResolver r) EmptyString EmptyString domainName
    = ((cname, records, err), dns') ->
  (Forall unparseable records ->
   match err, records with
   | Some e, _ =>
       fst (queryDNS domainName r)
       = inr (Errorf_q_v "unable to resolve SRV record for %q: %v" domainName e)
   | None, _ :: _ =>
       exists rec parseErr,
         In rec records /\
         (forall rec', In rec' records -> srvLe rec' rec) /\
         ParseConnName (TrimRight (Target rec) ".") = inr parseErr /\
         fst (queryDNS domainName r)
         = inr (Errorf_q_v "unable to parse SRV for %q: %v" domainName parseErr)
   | None, [] =>
       fst (queryDNS domainName r)
       = inr (Errorf_q "no valid SRV records found for %q" domainName)
   end) /\
  (Exists (fun rec => exists cn, ParseConnName (TrimRight (Target rec) ".") = inl cn)
          records ->
   exists rec cn,
     In rec records /\
     ParseConnName (TrimRight (Target rec) ".") = inl cn /\
     fst (queryDNS domainName r) = inl cn).
Proof.
  intros Hlookup.
  unfold queryDNS, queryDNSWith, bind, ret, callLookupSRV. rewrite Hlookup.
  simpl. unfold selectRecord. split.
  - intros Hnone.
    assert (Forall unparseable (sortSlice records)) as Hsorted_none
      by now rewrite sortSlice_Permutation.
    destruct records as [|rec0 records'].
    + simpl. destruct err; reflexivity.
    + destruct (exists_last (l := sortSlice (rec0 :: records'))) as (init & rec & Hsplit).
      { intros Hnil. pose proof (sortSlice_Permutation (rec0 :: records')) as Hp.
        rewrite Hnil in Hp. now apply Permutation_nil_cons in Hp. }
      rewrite Hsplit in Hsorted_none.
      apply Forall_app in Hsorted_none as [Hinit Hrec].
      apply Forall_cons in Hrec as [[parseErr Hrec] _].
      rewrite Hsplit, (parseRecords_none_valid _ _ _ parseErr) by assumption.
      destruct err as [e|]; [reflexivity|].
      exists rec, parseErr. repeat split; try assumption.
      * apply list_elem_of_In. rewrite <- (sortSlice_Permutation (rec0 :: records')), Hsplit.
        apply list_elem_of_In, in_or_app. right. now left.
      * intros rec' Hin.
        pose proof (sortSlice_StronglySorted (rec0 :: records')) as Hss.
        rewrite Hsplit in Hss. apply StronglySorted_app in Hss as (Hle & _ & _).
        apply list_elem_of_In in Hin.
        rewrite <- (sortSlice_Permutation (rec0 :: records')), Hsplit in Hin.
        apply elem_of_app in Hin as [Hin|Hin].
        -- apply Hle; [assumption|]. now left.
        -- apply list_elem_of_singleton in Hin. subst. apply srvLe_refl.
  - intros Hsome.
    assert (Exists (fun rec => exists cn,
                      ParseConnName (TrimRight (Target rec) ".") = inl cn)
                   (sortSlice records)) as Hsorted_some
      by now rewrite sortSlice_Permutation.
    destruct (parseRecords_some_valid domainName _ None Hsorted_some)
      as (rec & cn & Hin & Hp & Hres).
    exists rec, cn. rewrite Hres. repeat split; try assumption.
    apply list_elem_of_In. rewrite <- (sortSlice_Permutation records).
    now apply list_elem_of_In.
Qed.

(** C2. For a non-empty SRV answer, [queryDNS] sorts the records ascending
    by priority, ties ascending by target, and returns the identifier of
    the first record, in that order, whose target parses once its trailing
    dots are stripped; the records before it, which do not parse, are
    skipped. This holds for every order that is sorted in this way, so it
    does not depend on how the sort places records with equal priority and
    target. *)
Theorem queryDNS_first_parseable (r : DNSInstanceConnectionNameResolver R)
    (domainName cname : string) (records : list SRV) (err : option error)
    (dns' : R) :
  records <> [] ->
  LookupSRV (dnsResolver r) EmptyString EmptyString domainName
    = ((cname, records, err), dns') ->
  sortSlice records ≡ₚ records /\
  StronglySorted srvLe (sortSlice records) /\
  (forall (sorted skipped : list SRV) (rec : SRV) (rest : list SRV) (cn : ConnName),
     sorted ≡ₚ records ->
     StronglySorted srvLe sorted ->
     sorted = (skipped ++ rec :: rest)%list ->
     Forall unparseable skipped ->
     ParseConnName (TrimRight (Target rec) ".") = inl cn ->
     fst (queryDNS domainName r) = inl cn) /\
  (forall target : string,
     exists n, target = TrimRight target "." ++ dots n /\
               endsWithDot (TrimRight target ".") = false).
Proof.
  intros _ Hlookup.
  split; [apply sortSlice_Permutation|].
  split; [apply sortSlice_StronglySorted|].
  split; [|apply TrimRight_dots].
  intros sorted skipped rec rest cn Hperm Hsorted Hsplit Hskip Hrec.
  unfold queryDNS, queryDNSWith, bind, ret, callLookupSRV. rewrite Hlookup.
  simpl. unfold selectRecord.
  rewrite (parseRecords_targets domainName (sortSlice records) sorted).
  - now rewrite Hsplit, (parseRecords_found _ _ _ _ cn).
  - apply sorted_targets_unique;
      [now rewrite Hperm, sortSlice_Permutation| |assumption].
    apply sortSlice_StronglySorted.
Qed.

(** C3. When the input parses as an instance identifier, [Lookup] returns
    the parsed identifier and leaves the resolver as it was: no SRV query is
    issued. An SRV query is issued only when the input does not parse, and
    then [Lookup] is [queryDNS]. *)
Theorem Lookup_canonical_bypasses_DNS (r : DNSInstanceConnectionNameResolver R)
    (icn : string) :
  (forall cn, ParseConnName icn = inl cn -> Lookup icn r = (inl cn, r)) /\
  (srvQueries (snd (Lookup icn r)) <> srvQueries r ->
   exists parseErr, ParseConnName icn = inr parseErr) /\
  (forall parseErr, ParseConnName icn = inr parseErr ->
                    Lookup icn r = queryDNS icn r).
Proof.
  unfold Lookup. destruct (ParseConnName icn) as [cn|parseErr] eqn:Hparse.
  - split; [intros cn' [= <-]; reflexivity|].
    split; [intros Hq; now elim Hq|]. intros pe [=].
  - split; [intros cn [=]|]. split; [now eexists|]. intros _ _.
    unfold bind, ret. destruct (queryDNS icn r) as [[cn|e] r']; reflexivity.
Qed.
End ResolverClaims.

Lemma queryDNS_error_priority_witness :
  fst (@queryDNS specParseConnName _ scriptedResolver "db.example.com"
         (mkResolver [("srv", badRecords, Some (ErrExternal "timeout"))] []))
  = inr (Errorf_q_v "unable to resolve SRV record for %q: %v" "db.example.com"
                    (ErrExternal "timeout")) /\
  (exists rec parseErr,
     In rec badRecords /\
     (forall rec', In rec' badRecords -> srvLe rec' rec) /\
     specParseConnName (TrimRight (Target rec) ".") = inr parseErr /\
     fst (@queryDNS specParseConnName _ scriptedResolver "db.example.com"
            (mkResolver [("srv", badRecords, None)] []))
     = inr (Errorf_q_v "unable to parse SRV for %q: %v" "db.example.com" parseErr)) /\
  (exists rec cn,
     In rec mixedRecords /\
     specParseConnName (TrimRight (Target rec) ".") = inl cn /\
     fst (@queryDNS specParseConnName _ scriptedResolver "db.example.com"
            (mkResolver [("srv", mixedRecords, Some (ErrExternal "timeout"))] []))
     = inl cn).
Proof.
  split; [|split].
  - apply (proj1 (@queryDNS_error_priority specParseConnName _ scriptedResolver
                    (mkResolver [("srv", badRecords, Some (ErrExternal "timeout"))] [])
                    "db.example.com" "srv" badRecords
                    (Some (ErrExternal "timeout")) [] eq_refl)).
    repeat constructor; eexists; reflexivity.
  - apply (proj1 (@queryDNS_error_priority specParseConnName _ scriptedResolver
                    (mkResolver [("srv", badRecords, None)] [])
                    "db.example.com" "srv" badRecords None [] eq_refl)).
    repeat constructor; eexists; reflexivity.
  - apply (proj2 (@queryDNS_error_priority specParseConnName _ scriptedResolver
                    (mkResolver [("srv", mixedRecords, Some (ErrExternal "timeout"))] [])
                    "db.example.com" "srv" mixedRecords
                    (Some (ErrExternal "timeout")) [] eq_refl)).
    apply Exists_cons_hd. eexists. reflexivity.
Defined.

Lemma queryDNS_first_parseable_witness :
  fst (@queryDNS specParseConnName _ scriptedResolver "db.example.com"
         (mkResolver [("srv", mixedRecords, None)] []))
  = inl (mkConnName "a" "x" "y").
Proof.
  destruct (@queryDNS_first_parseable specParseConnName _ scriptedResolver
              (mkResolver [("srv", mixedRecords, None)] [])
              "db.example.com" "srv" mixedRecords None [])
    as (_ & _ & Hfirst & _); [discriminate|reflexivity|].
  apply (Hfirst [mkSRV "bad." 0 1 0; mkSRV "a:x:y.." 0 10 0; mkSRV "b:x:y." 0 10 0]
                [mkSRV "bad." 0 1 0] (mkSRV "a:x:y.." 0 10 0)
                [mkSRV "b:x:y." 0 10 0]).
  - apply (Permutation_app_comm [mkSRV "bad." 0 1 0; mkSRV "a:x:y.." 0 10 0]
                                [mkSRV "b:x:y." 0 10 0]).
  - repeat constructor; unfold srvLe, keyLe; simpl;
      first [left; lia | right; split; reflexivity].
  - reflexivity.
  - repeat constructor. eexists. reflexivity.
  - reflexivity.
Defined.

Lemma Lookup_canonical_bypasses_DNS_witness :
  @Lookup specParseConnName _ scriptedResolver "my-project:us-central1:my-instance"
          (mkResolver [] [])
  = (inl (mkConnName "my-project" "us-central1" "my-instance"), mkResolver [] []).
Proof.
  apply (proj1 (@Lookup_canonical_bypasses_DNS specParseConnName _ scriptedResolver
                  (mkResolver [] []) "my-project:us-central1:my-instance")).
  reflexivity.
Defined.

(** ** The dialer *)

Lemma constructed_app (connName : string) (l1 l2 : list Event) :
  constructed connName (l1 ++ l2)%list
  = (constructed connName l1 ++ constructed connName l2)%list.
Proof. unfold constructed. apply omap_app. Qed.

Section DialerClaims.
Context {E : Type} `{Collaborators E}.

(** Every way [Dial] can run: unfold it and split on what each collaborator
    answers. *)
Ltac unfold_dial :=
  unfold Dial, Dial_spanned, Dial_connect, Dialer_instance, instance_RLock,
    instance_Lock, forceRefresh, call, emit, go, setInstance, setOutside,
    newInstrumentedConn, bind, ret, gets, modify in *.

Ltac case_step :=
  match goal with
  | Hrun : context [match ?x with _ => _ end] |- _ =>
      lazymatch x with
      | context [match _ with _ => _ end] => fail
      | _ => destruct x eqn:?; simpl in Hrun
      end
  end.

Ltac dial_paths Hrun :=
  unfold eventsSince in *; unfold_dial; simpl in Hrun;
  repeat case_step;
  simplify_eq; simpl in *;
  rewrite <- ?app_assoc, ?drop_app_length in *; simpl in *.

(** Find the entry of the log that a hypothesis speaks of. *)
Ltac pick_event :=
  repeat match goal with
         | Hin : _ \/ _ |- _ => destruct Hin as [Hin|Hin]
         end;
  simplify_eq; try contradiction.

Ltac close_path :=
  repeat first [eexists | split]; try reflexivity; try eassumption;
  try apply lookup_insert_eq.

(** The same, for a conclusion that also follows the outside world. *)
Ltac close_world_path :=
  unfold reachesHandshake, reachesConnect, dialConfig;
  repeat first [eexists | split]; try reflexivity; try eassumption;
  try apply lookup_insert_eq;
  try solve [left; split; [eassumption|reflexivity]];
  try solve [right; split; eassumption];
  try reflexivity; try eassumption.

(** C5. When the TCP dial function fails in a call of [Dial], the call
    dials once and does not dial again, calls [ForceRefresh] once, on the
    provider that the registry holds for the identifier, and returns the
    dial error "failed to dial" that carries the string identity of that
    provider and the error of the dial function. The outside world that
    [Dial] leaves is the one in which the dial function failed with
    [ForceRefresh] applied to it once, and nothing after it. *)
Theorem Dial_tcp_dial_failure (d : Dialer E) (instance : string)
    (opts : list DialOption) (w w' : World E) (res : instrumentedConn + error)
    (network addr : string) (err : error) :
  Dial d instance opts w = (res, w') ->
  In (EvDialFunc network addr (inr err)) (eventsSince w w') ->
  exists i,
    instances w' !! instance = Some i /\
    res = inr (DialError "failed to dial" (Instance_String i) err) /\
    forceRefreshCalls (eventsSince w w') = [i] /\
    dialFuncCalls (eventsSince w w') = [("tcp", addr)] /\
    closeCalls (eventsSince w w') = [] /\
    goroutines w' = goroutines w /\
    exists startTime host tlsCfg e0 e1,
      reachesConnect d instance opts w startTime i host tlsCfg e0 /\
      addr = JoinHostPort host serverProxyPort /\
      dialFunc d "tcp" addr e0 = (inr err, e1) /\
      outside w' = ForceRefresh i e1.
Proof.
  intros Hrun Hin. dial_paths Hrun. all: pick_event. all: close_world_path.
Qed.

(** C6. When the TLS handshake fails in a call of [Dial], the call calls
    [ForceRefresh] once, on the provider that the registry holds for the
    identifier, closes the TLS connection once, and returns the dial error
    "handshake failed" that carries the string identity of that provider
    and the error of the handshake, whatever the close returned. The outside
    world that [Dial] leaves is the one in which the handshake failed with
    [ForceRefresh] applied to it and then the [Close] of the TLS connection
    run on it, and the logged result of the close is what that [Close]
    returned. *)
Theorem Dial_handshake_failure (d : Dialer E) (instance : string)
    (opts : list DialOption) (w w' : World E) (res : instrumentedConn + error)
    (c : netConn) (err : error) :
  Dial d instance opts w = (res, w') ->
  In (EvHandshake c (Some err)) (eventsSince w w') ->
  exists i closeRes,
    instances w' !! instance = Some i /\
    res = inr (DialError "handshake failed" (Instance_String i) err) /\
    forceRefreshCalls (eventsSince w w') = [i] /\
    closeCalls (eventsSince w w') = [(c, closeRes)] /\
    goroutines w' = goroutines w /\
    exists startTime conn tlsCfg eh e1,
      c = TLSClient conn tlsCfg /\
      reachesHandshake d instance opts w startTime i conn tlsCfg eh /\
      Handshake c eh = (Some err, e1) /\
      Conn_Close c (ForceRefresh i e1) = (closeRes, outside w').
Proof.
  intros Hrun Hin. dial_paths Hrun. all: pick_event. all: close_world_path.
Qed.

(** C7. When [ConnectInfo] fails in a call of [Dial], the call returns the
    error of [ConnectInfo] as it is, has called [ConnectInfo] once, has not
    called [ForceRefresh] or the dial function, and has neither changed the
    open-connection counters nor started a goroutine. *)
Theorem Dial_connect_info_failure (d : Dialer E) (instance : string)
    (opts : list DialOption) (w w' : World E) (res : instrumentedConn + error)
    (i : Instance) (ip : string) (err : error) :
  Dial d instance opts w = (res, w') ->
  In (EvConnectInfo i ip (inr err)) (eventsSince w w') ->
  res = inr err /\
  connectInfoCalls (eventsSince w w') = [(i, ip)] /\
  forceRefreshCalls (eventsSince w w') = [] /\
  dialFuncCalls (eventsSince w w') = [] /\
  openConns w' = openConns w /\
  goroutines w' = goroutines w.
Proof.
  intros Hrun Hin. dial_paths Hrun. all: pick_event. all: close_path.
Qed.

(** C10. When enabling keep-alive, or setting the keep-alive period, fails
    in a call of [Dial], the connection is the TCP connection that the dial
    function returned, and the call returns a dial error ("failed to set
    keep-alive", "failed to set keep-alive period") that carries the
    string identity of the provider the registry holds for the identifier;
    it calls neither [ForceRefresh] nor the [Close] of the connection. *)
Theorem Dial_keep_alive_failure (d : Dialer E) (instance : string)
    (opts : list DialOption) (w w' : World E) (res : instrumentedConn + error)
    (c : netConn) (err : error) :
  Dial d instance opts w = (res, w') ->
  (forall keepalive,
     In (EvSetKeepAlive c keepalive (Some err)) (eventsSince w w') ->
     exists i fd addr,
       c = TCPConn fd /\ keepalive = true /\
       In (EvDialFunc "tcp" addr (inl c)) (eventsSince w w') /\
       instances w' !! instance = Some i /\
       res = inr (DialError "failed to set keep-alive" (Instance_String i) err) /\
       forceRefreshCalls (eventsSince w w') = [] /\
       closeCalls (eventsSince w w') = []) /\
  (forall period,
     In (EvSetKeepAlivePeriod c period (Some err)) (eventsSince w w') ->
     exists i fd addr,
       c = TCPConn fd /\
       In (EvDialFunc "tcp" addr (inl c)) (eventsSince w w') /\
       instances w' !! instance = Some i /\
       res = inr (DialError "failed to set keep-alive period" (Instance_String i) err) /\
       forceRefreshCalls (eventsSince w w') = [] /\
       closeCalls (eventsSince w w') = []).
Proof.
  intros Hrun. dial_paths Hrun.
  all: split; intros ? Hin; pick_event.
  all: eexists _, _, _; repeat split; try reflexivity; try eassumption;
    try apply lookup_insert_eq; simpl; auto 10.
Qed.

(** C4, as the code has it. When [Dial] succeeds, it has started the
    goroutine that adds one to the open-connection counter of the
    identifier, and that goroutine has not run when [Dial] returns: the
    counters are as they were before the call. The goroutine, when it runs,
    adds one to the counter, and the close callback of the connection that
    [Dial] returns takes one from it. *)
Theorem Dial_success_starts_increment (d : Dialer E) (instance : string)
    (opts : list DialOption) (w w' : World E) (ic : instrumentedConn) :
  Dial d instance opts w = (inl ic, w') ->
  openConns w' = openConns w /\
  closeFunc ic = decOpenConns instance /\
  exists latency,
    goroutines w' = (goroutines w ++ [incOpenConns instance latency])%list /\
    forall w0 : World E,
      counter (snd (runTask d (incOpenConns instance latency) w0)) instance
      = wrap64 (counter w0 instance + 1) /\
      counter (snd (runTask d (closeFunc ic) w0)) instance
      = wrap64 (counter w0 instance - 1).
Proof.
  intros Hrun. dial_paths Hrun.
  all: repeat first [eexists | split]; try reflexivity.
  all: unfold counter; simpl; now rewrite lookup_insert_eq.
Qed.

(** C9. [Close] of an instrumented connection calls the [Close] of the
    connection it wraps, once: the outside world it leaves is the one that
    this [Close] leaves. If that returns no error, [Close] starts the
    callback as a goroutine and returns no error; if it returns an error,
    [Close] returns that error and does not start the callback. In both
    cases the counters and the registry are as they were when [Close]
    returns. *)
Theorem instrumentedConn_Close_callback (ic : instrumentedConn) (w : World E) :
  closeCalls (eventsSince w (snd (instrumentedConn_Close ic w)))
  = [(Conn ic, fst (Conn_Close (Conn ic) (outside w)))] /\
  outside (snd (instrumentedConn_Close ic w)) = snd (Conn_Close (Conn ic) (outside w)) /\
  instances (snd (instrumentedConn_Close ic w)) = instances w /\
  openConns (snd (instrumentedConn_Close ic w)) = openConns w /\
  match fst (Conn_Close (Conn ic) (outside w)) with
  | None =>
      fst (instrumentedConn_Close ic w) = None /\
      goroutines (snd (instrumentedConn_Close ic w))
      = (goroutines w ++ [closeFunc ic])%list
  | Some err =>
      fst (instrumentedConn_Close ic w) = Some err /\
      goroutines (snd (instrumentedConn_Close ic w)) = goroutines w
  end.
Proof.
  unfold instrumentedConn_Close, eventsSince, call, emit, go, setOutside,
    bind, ret, modify.
  destruct (Conn_Close (Conn ic) (outside w)) as [[err|] e']; simpl;
    rewrite drop_app_length; auto 10.
Qed.

(** A whole call of [Dial] keeps the registry invariant: the only entry it
    can add is the provider it builds when the identifier has none. *)
Lemma Dial_keeps_registryInv (d : Dialer E) (instance : string)
    (opts : list DialOption) (w w' : World E) (res : instrumentedConn + error)
    (pool : list instanceCall) :
  registryInv (w, pool) ->
  Dial d instance opts w = (res, w') ->
  registryInv (w', pool).
Proof.
  intros [Hbuilt Hret] Hrun. unfold registryInv in *. simpl in *.
  dial_paths Hrun.
  all: split;
    [intros cn; rewrite constructed_app, Hbuilt; simpl;
     try destruct (String.eqb_spec instance cn) as [<-|Hne];
     rewrite ?lookup_insert_eq, ?lookup_insert_ne by assumption;
     try match goal with
         | Hnone : _ !! _ = None |- _ => rewrite Hnone
         end;
     try match goal with
         | |- context [match ?entry with _ => _ end] => destruct entry
         end;
     reflexivity
    |intros call cn built Hcall; specialize (Hret call cn built Hcall);
     try (rewrite lookup_insert_ne; [assumption|congruence]); assumption].
Qed.

Lemma instrumentedConn_Close_keeps_registryInv (ic : instrumentedConn)
    (w w' : World E) (res : option error) (pool : list instanceCall) :
  registryInv (w, pool) ->
  instrumentedConn_Close ic w = (res, w') ->
  registryInv (w', pool).
Proof.
  intros [Hbuilt Hret] Hrun. unfold registryInv in *. simpl in *.
  unfold instrumentedConn_Close, call, emit, go, setOutside, bind, ret, modify in Hrun.
  destruct (Conn_Close (Conn ic) (outside w)) as [[err|] e']; simpl in Hrun;
    simplify_eq; simpl; (split; [|assumption]);
    intros cn; rewrite constructed_app, Hbuilt; simpl; apply app_nil_r.
Qed.

Lemma schedule_keeps_registryInv (d : Dialer E) (n : nat) (w w' : World E)
    (pool : list instanceCall) :
  registryInv (w, pool) ->
  schedule d n w = Some w' ->
  registryInv (w', pool).
Proof.
  intros [Hbuilt Hret] Hrun. unfold registryInv in *. simpl in *.
  unfold schedule in Hrun. destruct (goroutines w !! n) as [[instance latency|instance]|];
    simplify_eq; simpl; (split; [|assumption]); intros cn;
    rewrite ?constructed_app, Hbuilt; simpl; rewrite ?app_nil_r; reflexivity.
Qed.
End DialerClaims.

(** ** The registry *)

Section RegistryClaims.
Context {E : Type} `{Collaborators E}.

Ltac unfold_instance :=
  unfold Dialer_instance, instance_RLock, instance_Lock, call, emit,
    setInstance, setOutside, bind, ret, gets, modify in *.

Lemma instance_Lock_inv (d : Dialer E) (connName : string) (w w' : World E)
    (res : Instance + error) (pool : list instanceCall) :
  registryInv (w, pool) ->
  instance_Lock d connName w = (res, w') ->
  registryInv (w', pool) /\
  (forall i, res = inl i -> instances w' !! connName = Some i).
Proof.
  intros [Hbuilt Hret] Hrun. unfold registryInv in *. simpl in *.
  unfold_instance. simpl in Hrun.
  destruct (instances w !! connName) as [i|] eqn:Hentry.
  { simplify_eq. repeat split; auto. intros i' [= <-]. assumption. }
  destruct (NewInstance connName (sqladmin d) (key d) (refreshTimeout d)
                        (iamTokenSource d) (outside w)) as [[i|err] e'];
    simpl in Hrun; simplify_eq; simpl.
  - repeat split.
    + intros cn. rewrite constructed_app, Hbuilt. simpl.
      destruct (String.eqb_spec connName cn) as [<-|Hne].
      * now rewrite Hentry, lookup_insert_eq.
      * rewrite lookup_insert_ne by assumption.
        destruct (instances w !! cn); reflexivity.
    + intros t cn i' Ht. specialize (Hret t cn i' Ht).
      rewrite lookup_insert_ne; [assumption|]. congruence.
    + intros i' [= <-]. apply lookup_insert_eq.
  - repeat split.
    + intros cn. rewrite constructed_app, Hbuilt. simpl.
      destruct (instances w !! cn); reflexivity.
    + assumption.
    + intros i' [=].
Qed.

Lemma stepCall_inv (d : Dialer E) (w w' : World E) (pool : list instanceCall)
    (t : nat) (c c' : instanceCall) :
  registryInv (w, pool) ->
  pool !! t = Some c ->
  stepCall d c w = (c', w') ->
  registryInv (w', <[t := c']> pool).
Proof.
  intros Hinv Ht Hstep. destruct c as [connName|connName|connName res]; simpl in Hstep.
  - unfold instance_RLock, bind, ret, gets in Hstep. simpl in Hstep.
    destruct Hinv as [Hbuilt Hret].
    destruct (instances w !! connName) as [i|] eqn:Hentry; simplify_eq;
      (split; [exact Hbuilt|]); simpl; intros t' cn i' Ht';
      apply list_lookup_insert_Some in Ht' as [(-> & Heq & _)|[_ Ht']];
      simplify_eq; eauto.
  - unfold bind, ret in Hstep.
    destruct (instance_Lock d connName w) as [res w1] eqn:Hlock. simplify_eq.
    destruct (instance_Lock_inv d connName w w' res pool Hinv Hlock)
      as [[Hbuilt Hret] Hres].
    split; [exact Hbuilt|]. simpl in *. intros t' cn i' Ht'.
    apply list_lookup_insert_Some in Ht' as [(-> & Heq & _)|[_ Ht']];
      simplify_eq; eauto.
  - unfold ret in Hstep. simplify_eq. now rewrite list_insert_id.
Qed.

Lemma registrySteps_inv (d : Dialer E) (s s' : World E * list instanceCall) :
  registryInv s -> registrySteps d s s' -> registryInv s'.
Proof.
  intros Hinv Hsteps. induction Hsteps as [|s1 s2 s3 _ IH Hstep]; [assumption|].
  specialize (IH Hinv).
  destruct Hstep as [w pool connName|w pool t c c' w' Ht Hstep
                    |w pool instance opts res w' Hdial
                    |w pool ic res w' Hclose|w pool n w' Hsched].
  - destruct IH as [Hbuilt Hret]. split; [exact Hbuilt|]. simpl in *.
    intros t cn i Ht. apply lookup_app_Some in Ht as [Ht|[_ Ht]]; [eauto|].
    destruct (t - length pool)%nat; simplify_eq.
  - eapply stepCall_inv; eassumption.
  - eapply Dial_keeps_registryInv; eassumption.
  - eapply instrumentedConn_Close_keeps_registryInv; eassumption.
  - eapply schedule_keeps_registryInv; eassumption.
Qed.

Lemma runPool_steps (d : Dialer E) (picks : list nat)
    (s : World E * list instanceCall) :
  registrySteps d s (runPool d picks s).
Proof.
  assert (forall s0, registrySteps d s s0 -> registrySteps d s (runPool d picks s0))
    as Hgen; [|apply Hgen; constructor].
  induction picks as [|t rest IH]; intros [w pool] Hs0; simpl; [assumption|].
  destruct (pool !! t) as [c|] eqn:Ht; [|now apply IH].
  destruct (stepCall d c w) as [c' w'] eqn:Hstep.
  apply IH. eapply registry_trans; [exact Hs0|]. econstructor; eassumption.
Qed.

Lemma Dialer_instance_hit (d : Dialer E) (w : World E) (connName : string)
    (i : Instance) :
  instances w !! connName = Some i ->
  Dialer_instance d connName w = (inl i, w).
Proof. intros Hentry. unfold_instance. simpl. now rewrite Hentry. Qed.

Lemma instance_Lock_hit (d : Dialer E) (w : World E) (connName : string)
    (i : Instance) :
  instances w !! connName = Some i ->
  instance_Lock d connName w = (inl i, w).
Proof. intros Hentry. unfold_instance. simpl. now rewrite Hentry. Qed.

Lemma Dialer_instance_miss (d : Dialer E) (w : World E) (connName : string) :
  instances w !! connName = None ->
  Dialer_instance d connName w
  = let (r, e') := NewInstance connName (sqladmin d) (key d) (refreshTimeout d)
                               (iamTokenSource d) (outside w) in
    (r, mkWorld (match r with
                 | inl i => <[connName := i]> (instances w)
                 | inr _ => instances w
                 end)
                (openConns w) e' (log w ++ [EvNewInstance connName r])%list
                (goroutines w)).
Proof.
  intros Hentry. unfold_instance. simpl. rewrite Hentry. simpl. rewrite Hentry.
  destruct (NewInstance connName (sqladmin d) (key d) (refreshTimeout d)
                        (iamTokenSource d) (outside w)) as [[i|err] e'];
    reflexivity.
Qed.

(** C8. Get-or-create on the registry.
    - An entry that exists is returned as it is, under the read lock and at
      the re-check under the write lock, without a call of
      [cloudsql.NewInstance] and without a change of the world.
    - When there is no entry, [cloudsql.NewInstance] is called once; its
      provider is inserted and returned, or its error is returned and the
      registry is left as it was.
    - After a call that returned an error the identifier still has no
      entry, and the next call for it calls [cloudsql.NewInstance] again.
    - Over every interleaving of the critical sections of concurrent
      calls, with dials, closes and goroutines running in between, the
      entry of an identifier is the one provider built for it:
      at most one provider is built per identifier, and all calls that
      return a provider for an identifier return the same one. *)
Theorem Dialer_instance_get_or_create (d : Dialer E) :
  (forall (w : World E) connName i,
     instances w !! connName = Some i ->
     Dialer_instance d connName w = (inl i, w) /\
     instance_Lock d connName w = (inl i, w)) /\
  (forall (w w' : World E) connName res,
     instances w !! connName = None ->
     Dialer_instance d connName w = (res, w') ->
     (res, outside w')
     = NewInstance connName (sqladmin d) (key d) (refreshTimeout d)
                   (iamTokenSource d) (outside w) /\
     eventsSince w w' = [EvNewInstance connName res] /\
     instances w' = match res with
                    | inl i => <[connName := i]> (instances w)
                    | inr _ => instances w
                    end) /\
  (forall (w w' w2 : World E) connName err res2,
     Dialer_instance d connName w = (inr err, w') ->
     Dialer_instance d connName w' = (res2, w2) ->
     instances w' = instances w /\
     instances w' !! connName = None /\
     newInstanceCalls (eventsSince w' w2) = [connName]) /\
  (forall s s' : World E * list instanceCall,
     registryInv s ->
     registrySteps d s s' ->
     registryInv s' /\
     (forall connName, length (constructed connName (log (fst s'))) <= 1) /\
     (forall (t1 t2 : nat) connName i1 i2,
        snd s' !! t1 = Some (Returned connName (inl i1)) ->
        snd s' !! t2 = Some (Returned connName (inl i2)) ->
        i1 = i2)).
Proof.
  split; [|split; [|split]].
  - intros w connName i Hentry.
    now rewrite (Dialer_instance_hit d w connName i),
      (instance_Lock_hit d w connName i).
  - intros w w' connName res Hentry Hrun.
    rewrite Dialer_instance_miss in Hrun by assumption.
    destruct (NewInstance connName (sqladmin d) (key d) (refreshTimeout d)
                          (iamTokenSource d) (outside w)) as [r e'].
    simplify_eq. unfold eventsSince. simpl. now rewrite drop_app_length.
  - intros w w' w2 connName err res2 Hrun1 Hrun2.
    destruct (instances w !! connName) as [i|] eqn:Hentry;
      [rewrite (Dialer_instance_hit d w connName i) in Hrun1 by assumption;
       simplify_eq|].
    rewrite Dialer_instance_miss in Hrun1 by assumption.
    destruct (NewInstance connName (sqladmin d) (key d) (refreshTimeout d)
                          (iamTokenSource d) (outside w)) as [r e'].
    simplify_eq. simpl in *.
    rewrite Dialer_instance_miss in Hrun2 by assumption. simpl in Hrun2.
    destruct (NewInstance connName (sqladmin d) (key d) (refreshTimeout d)
                          (iamTokenSource d) e') as [r2 e2].
    simplify_eq. unfold eventsSince. simpl. rewrite drop_app_length. auto.
  - intros s s' Hinv Hsteps.
    pose proof (registrySteps_inv d s s' Hinv Hsteps) as Hinv'.
    split; [exact Hinv'|]. destruct Hinv' as [Hbuilt Hret]. split.
    + intros connName. rewrite Hbuilt.
      destruct (instances (fst s') !! connName); simpl; lia.
    + intros t1 t2 connName i1 i2 H1 H2. apply Hret in H1, H2. congruence.
Qed.
End RegistryClaims.

(** ** The claims at concrete runs *)

#[local] Existing Instance scriptedCollaborators.

Ltac find_event := vm_compute; repeat first [left; reflexivity | right].

Lemma Dial_tcp_dial_failure_witness :
  exists i,
    instances (snd (dialWith tcpFailScript)) !! theInstance = Some i /\
    fst (dialWith tcpFailScript)
    = inr (DialError "failed to dial" (Instance_String i)
                     (ErrExternal "connection refused")) /\
    forceRefreshCalls (eventsSince (freshWorld tcpFailScript)
                                   (snd (dialWith tcpFailScript))) = [i] /\
    dialFuncCalls (eventsSince (freshWorld tcpFailScript)
                               (snd (dialWith tcpFailScript)))
    = [("tcp", "10.0.0.1:3307")] /\
    closeCalls (eventsSince (freshWorld tcpFailScript)
                            (snd (dialWith tcpFailScript))) = [] /\
    goroutines (snd (dialWith tcpFailScript)) = [] /\
    exists startTime host tlsCfg e0 e1,
      reachesConnect scriptedDialer theInstance [] (freshWorld tcpFailScript)
                     startTime i host tlsCfg e0 /\
      "10.0.0.1:3307" = JoinHostPort host serverProxyPort /\
      dialFunc scriptedDialer "tcp" "10.0.0.1:3307" e0
      = (inr (ErrExternal "connection refused"), e1) /\
      outside (snd (dialWith tcpFailScript)) = ForceRefresh i e1.
Proof.
  apply (@Dial_tcp_dial_failure _ scriptedCollaborators scriptedDialer theInstance []
           (freshWorld tcpFailScript) (snd (dialWith tcpFailScript))
           (fst (dialWith tcpFailScript)) "tcp" "10.0.0.1:3307"
           (ErrExternal "connection refused")).
  - apply surjective_pairing.
  - find_event.
Defined.

Lemma Dial_handshake_failure_witness :
  exists i closeRes,
    instances (snd (dialWith handshakeFailScript)) !! theInstance = Some i /\
    fst (dialWith handshakeFailScript)
    = inr (DialError "handshake failed" (Instance_String i)
                     (ErrExternal "bad certificate")) /\
    forceRefreshCalls (eventsSince (freshWorld handshakeFailScript)
                                   (snd (dialWith handshakeFailScript))) = [i] /\
    closeCalls (eventsSince (freshWorld handshakeFailScript)
                            (snd (dialWith handshakeFailScript)))
    = [(TLSClient (TCPConn 3) 9%N, closeRes)] /\
    goroutines (snd (dialWith handshakeFailScript)) = [] /\
    exists startTime conn tlsCfg eh e1,
      TLSClient (TCPConn 3) 9%N = TLSClient conn tlsCfg /\
      reachesHandshake scriptedDialer theInstance [] (freshWorld handshakeFailScript)
                       startTime i conn tlsCfg eh /\
      Handshake (TLSClient (TCPConn 3) 9%N) eh
      = (Some (ErrExternal "bad certificate"), e1) /\
      Conn_Close (TLSClient (TCPConn 3) 9%N) (ForceRefresh i e1)
      = (closeRes, outside (snd (dialWith handshakeFailScript))).
Proof.
  apply (@Dial_handshake_failure _ scriptedCollaborators scriptedDialer theInstance []
           (freshWorld handshakeFailScript) (snd (dialWith handshakeFailScript))
           (fst (dialWith handshakeFailScript)) (TLSClient (TCPConn 3) 9%N)
           (ErrExternal "bad certificate")).
  - apply surjective_pairing.
  - find_event.
Defined.

Lemma Dial_connect_info_failure_witness :
  fst (dialWith connectInfoFailScript) = inr (ErrExternal "refresh failed") /\
  connectInfoCalls (eventsSince (freshWorld connectInfoFailScript)
                                (snd (dialWith connectInfoFailScript)))
  = [(7%N, "PUBLIC")] /\
  forceRefreshCalls (eventsSince (freshWorld connectInfoFailScript)
                                 (snd (dialWith connectInfoFailScript))) = [] /\
  dialFuncCalls (eventsSince (freshWorld connectInfoFailScript)
                             (snd (dialWith connectInfoFailScript))) = [] /\
  openConns (snd (dialWith connectInfoFailScript)) = ∅ /\
  goroutines (snd (dialWith connectInfoFailScript)) = [].
Proof.
  apply (@Dial_connect_info_failure _ scriptedCollaborators scriptedDialer theInstance []
           (freshWorld connectInfoFailScript) (snd (dialWith connectInfoFailScript))
           (fst (dialWith connectInfoFailScript)) 7%N "PUBLIC"
           (ErrExternal "refresh failed")).
  - apply surjective_pairing.
  - find_event.
Defined.

Lemma Dial_keep_alive_failure_witness :
  (exists i fd addr,
     TCPConn 3 = TCPConn fd /\ true = true /\
     In (EvDialFunc "tcp" addr (inl (TCPConn 3)))
        (eventsSince (freshWorld keepAliveFailScript)
                     (snd (dialWith keepAliveFailScript))) /\
     instances (snd (dialWith keepAliveFailScript)) !! theInstance = Some i /\
     fst (dialWith keepAliveFailScript)
     = inr (DialError "failed to set keep-alive" (Instance_String i)
                      (ErrExternal "bad descriptor")) /\
     forceRefreshCalls (eventsSince (freshWorld keepAliveFailScript)
                                    (snd (dialWith keepAliveFailScript))) = [] /\
     closeCalls (eventsSince (freshWorld keepAliveFailScript)
                             (snd (dialWith keepAliveFailScript))) = []) /\
  (exists i fd addr,
     TCPConn 3 = TCPConn fd /\
     In (EvDialFunc "tcp" addr (inl (TCPConn 3)))
        (eventsSince (freshWorld keepAlivePeriodFailScript)
                     (snd (dialWith keepAlivePeriodFailScript))) /\
     instances (snd (dialWith keepAlivePeriodFailScript)) !! theInstance = Some i /\
     fst (dialWith keepAlivePeriodFailScript)
     = inr (DialError "failed to set keep-alive period" (Instance_String i)
                      (ErrExternal "bad descriptor")) /\
     forceRefreshCalls (eventsSince (freshWorld keepAlivePeriodFailScript)
                                    (snd (dialWith keepAlivePeriodFailScript))) = [] /\
     closeCalls (eventsSince (freshWorld keepAlivePeriodFailScript)
                             (snd (dialWith keepAlivePeriodFailScript))) = []).
Proof.
  split.
  - apply (proj1 (@Dial_keep_alive_failure _ scriptedCollaborators scriptedDialer
                    theInstance [] (freshWorld keepAliveFailScript)
                    (snd (dialWith keepAliveFailScript))
                    (fst (dialWith keepAliveFailScript)) (TCPConn 3)
                    (ErrExternal "bad descriptor")
                    (surjective_pairing _)) true).
    find_event.
  - apply (proj2 (@Dial_keep_alive_failure _ scriptedCollaborators scriptedDialer
                    theInstance [] (freshWorld keepAlivePeriodFailScript)
                    (snd (dialWith keepAlivePeriodFailScript))
                    (fst (dialWith keepAlivePeriodFailScript)) (TCPConn 3)
                    (ErrExternal "bad descriptor")
                    (surjective_pairing _)) 30000000000%Z).
    find_event.
Defined.

Lemma Dial_success_starts_increment_witness :
  openConns (snd (dialWith happyScript)) = ∅ /\
  closeFunc (mkInstrumentedConn (TLSClient (TCPConn 3) 9%N) (decOpenConns theInstance))
  = decOpenConns theInstance /\
  exists latency,
    goroutines (snd (dialWith happyScript)) = [incOpenConns theInstance latency] /\
    forall w0 : World Script,
      counter (snd (runTask scriptedDialer (incOpenConns theInstance latency) w0))
              theInstance
      = wrap64 (counter w0 theInstance + 1) /\
      counter (snd (runTask scriptedDialer
                      (closeFunc (mkInstrumentedConn (TLSClient (TCPConn 3) 9%N)
                                                     (decOpenConns theInstance))) w0))
              theInstance
      = wrap64 (counter w0 theInstance - 1).
Proof.
  apply (@Dial_success_starts_increment _ scriptedCollaborators scriptedDialer
           theInstance [] (freshWorld happyScript) (snd (dialWith happyScript))
           (mkInstrumentedConn (TLSClient (TCPConn 3) 9%N) (decOpenConns theInstance))).
  vm_compute. reflexivity.
Defined.

(** C4, as the specification states it, fails. In this run [Dial] succeeds
    and the counter of the identifier is 0 before the call and 0 when it
    returns; the caller closes the connection at once; the scheduler runs the
    goroutine of the close before the goroutine of the dial, and the counter
    is -1. *)
Lemma Dial_increment_not_before_return :
  ~ incrementedAtReturn scriptedDialer theInstance [] (freshWorld happyScript) /\
  exists ic,
    fst (dialWith happyScript) = inl ic /\
    counter (freshWorld happyScript) theInstance = 0%Z /\
    counter (snd (dialWith happyScript)) theInstance = 0%Z /\
    exists w2,
      instrumentedConn_Close ic (snd (dialWith happyScript)) = (None, w2) /\
      goroutines w2 = [incOpenConns theInstance 2; decOpenConns theInstance] /\
      exists w3,
        schedule scriptedDialer 1 w2 = Some w3 /\
        counter w3 theInstance = (-1)%Z /\
        goroutines w3 = [incOpenConns theInstance 2].
Proof.
  split.
  - intros Hclaim.
    specialize (Hclaim (mkInstrumentedConn (TLSClient (TCPConn 3) 9%N)
                                           (decOpenConns theInstance))
                       (snd (dialWith happyScript))).
    assert (counter (snd (dialWith happyScript)) theInstance
            = wrap64 (counter (freshWorld happyScript) theInstance + 1)) as Hone
      by (apply Hclaim; vm_compute; reflexivity).
    vm_compute in Hone. discriminate Hone.
  - eexists. split; [vm_compute; reflexivity|].
    split; [vm_compute; reflexivity|].
    split; [vm_compute; reflexivity|].
    eexists. split; [vm_compute; reflexivity|].
    split; [vm_compute; reflexivity|].
    eexists. split; [vm_compute; reflexivity|].
    split; vm_compute; reflexivity.
Qed.

Lemma Dialer_instance_get_or_create_witness :
  (@Dialer_instance _ scriptedCollaborators scriptedDialer theInstance
     (snd (dialWith happyScript))
   = (inl 7%N, snd (dialWith happyScript))) /\
  (instances (snd (@Dialer_instance _ scriptedCollaborators scriptedDialer theInstance
                     (freshWorld retryScript)))
   = ∅ /\
   instances (snd (@Dialer_instance _ scriptedCollaborators scriptedDialer theInstance
                     (freshWorld retryScript))) !! theInstance
   = None /\
   newInstanceCalls
     (eventsSince
        (snd (@Dialer_instance _ scriptedCollaborators scriptedDialer theInstance
                (freshWorld retryScript)))
        (snd (@Dialer_instance _ scriptedCollaborators scriptedDialer theInstance
                (snd (@Dialer_instance _ scriptedCollaborators scriptedDialer
                        theInstance (freshWorld retryScript))))))
   = [theInstance]) /\
  (registryInv (runPool scriptedDialer [0; 1; 2; 0; 1; 2; 2]%nat racingCalls) /\
   (forall connName,
      length (constructed connName
                (log (fst (runPool scriptedDialer [0; 1; 2; 0; 1; 2; 2]%nat
                             racingCalls)))) <= 1) /\
   (forall (t1 t2 : nat) connName i1 i2,
      snd (runPool scriptedDialer [0; 1; 2; 0; 1; 2; 2]%nat racingCalls) !! t1
      = Some (Returned connName (inl i1)) ->
      snd (runPool scriptedDialer [0; 1; 2; 0; 1; 2; 2]%nat racingCalls) !! t2
      = Some (Returned connName (inl i2)) ->
      i1 = i2)).
Proof.
  destruct (@Dialer_instance_get_or_create _ scriptedCollaborators scriptedDialer)
    as (Hhit & _ & Hretry & Hrace).
  split; [|split].
  - apply Hhit. vm_compute. reflexivity.
  - apply (Hretry (freshWorld retryScript) _ _ theInstance
                  (ErrExternal "no admin API client")
                  (fst (@Dialer_instance _ scriptedCollaborators scriptedDialer
                          theInstance
                          (snd (@Dialer_instance _ scriptedCollaborators
                                  scriptedDialer theInstance
                                  (freshWorld retryScript)))))).
    + vm_compute. reflexivity.
    + apply surjective_pairing.
  - apply (Hrace racingCalls).
    + split.
      * intros connName. reflexivity.
      * intros [|[|[|t]]] connName i; simpl; discriminate.
    + apply runPool_steps.
Defined.

(** * More of the resolver *)

Lemma TrimRight_app_dots (t : string) (n : nat) :
  endsWithDot t = false -> TrimRight (t ++ dots n) "." = t.
Proof.
  induction t as [|c t IH]; intros Hend.
  - change (TrimRight (dots n) "." = EmptyString).
    induction n as [|n IHn]; [reflexivity|]. simpl. now rewrite IHn.
  - change (TrimRight (String c (t ++ dots n)) "." = String c t).
    simpl. destruct t as [|c' t'].
    + change (EmptyString ++ dots n) with (dots n).
      assert (TrimRight (dots n) "." = EmptyString) as ->.
      { clear. induction n as [|n IHn]; [reflexivity|]. simpl. now rewrite IHn. }
      simpl in Hend. now rewrite Hend.
    + rewrite IH by exact Hend. reflexivity.
Qed.

Section ResolverMore.
Context `{ConnNameParser} {R : Type} `{netResolver R}.

Lemma unparseable_or_parses (rec : SRV) :
  unparseable rec \/ exists cn, ParseConnName (TrimRight (Target rec) ".") = inl cn.
Proof.
  unfold unparseable.
  destruct (ParseConnName (TrimRight (Target rec) ".")) as [cn|pe]; eauto.
Qed.

Lemma parseRecords_all_unparseable (domainName : string) (l : list SRV)
    (perr : option error) :
  Forall unparseable l -> exists perr', parseRecords domainName l perr = inr perr'.
Proof.
  intros Hall. revert perr.
  induction Hall as [|x xs [pe Hx] _ IH]; intros perr; simpl; [eauto|].
  rewrite Hx. apply IH.
Qed.

(** Where the loop returns from the function, it has skipped records that do
    not parse and stopped at one that does. *)
Lemma parseRecords_inl_split (domainName : string) (l : list SRV)
    (perr : option error) (cn : ConnName) :
  parseRecords domainName l perr = inl cn ->
  exists skipped rec rest,
    l = (skipped ++ rec :: rest)%list /\
    Forall unparseable skipped /\
    ParseConnName (TrimRight (Target rec) ".") = inl cn.
Proof.
  revert perr. induction l as [|x xs IH]; intros perr Hrun; [discriminate|].
  simpl in Hrun.
  destruct (ParseConnName (TrimRight (Target x) ".")) as [cn'|pe] eqn:Hx.
  - injection Hrun as ->. exists [], x, xs. repeat split; auto.
  - destruct (IH _ Hrun) as (skipped & rec & rest & -> & Hskip & Hrec).
    exists (x :: skipped), rec, rest. repeat split; auto.
    constructor; [now exists pe|assumption].
Qed.


(** X1. [queryDNS] fails exactly when no record of the SRV answer parses:
    the error of the lookup alone never makes it fail, and the absence of
    an error of the lookup never makes it succeed. *)
Theorem queryDNS_fails_iff_none_parses (r : DNSInstanceConnectionNameResolver R)
    (domainName cname : string) (records : list SRV) (err : option error)
    (dns' : R) :
  LookupSRV (dnsResolver r) EmptyString EmptyString domainName
    = ((cname, records, err), dns') ->
  (exists e, fst (queryDNS domainName r) = inr e) <-> Forall unparseable records.
Proof.
  intros Hlookup.
  unfold queryDNS, queryDNSWith, bind, ret, callLookupSRV. rewrite Hlookup.
  simpl. unfold selectRecord. split.
  - intros [e He]. rewrite <- (sortSlice_Permutation records).
    apply Forall_forall. intros rec Hin.
    destruct (unparseable_or_parses rec) as [Hbad|Hgood]; [assumption|].
    assert (Exists (fun rec => exists cn,
                      ParseConnName (TrimRight (Target rec) ".") = inl cn)
                   (sortSlice records)) as Hex
      by (apply Exists_exists; eauto).
    destruct (parseRecords_some_valid domainName _ None Hex) as (? & cn & _ & _ & Hres).
    rewrite Hres in He. discriminate.
  - intros Hnone. rewrite <- (sortSlice_Permutation records) in Hnone.
    destruct (parseRecords_all_unparseable domainName _ None Hnone) as [perr' ->].
    destruct err; [eauto|]. destruct perr'; eauto.
Qed.

(** X2. When [queryDNS] succeeds, the identifier it returns is the one of a
    record of the answer that is least among the records that parse: no
    record that parses has a lower priority, or the same priority and a
    smaller target. *)
Theorem queryDNS_selects_least_parseable (r : DNSInstanceConnectionNameResolver R)
    (domainName cname : string) (records : list SRV) (err : option error)
    (dns' : R) (cn : ConnName) :
  LookupSRV (dnsResolver r) EmptyString EmptyString domainName
    = ((cname, records, err), dns') ->
  fst (queryDNS domainName r) = inl cn ->
  exists rec,
    In rec records /\
    ParseConnName (TrimRight (Target rec) ".") = inl cn /\
    forall rec' cn',
      In rec' records ->
      ParseConnName (TrimRight (Target rec') ".") = inl cn' ->
      srvLe rec rec'.
Proof.
  intros Hlookup.
  unfold queryDNS, queryDNSWith, bind, ret, callLookupSRV. rewrite Hlookup.
  simpl. unfold selectRecord.
  destruct (parseRecords domainName (sortSlice records) None) as [cn0|perr] eqn:Hrun.
  2: { destruct err; [discriminate|]. destruct perr; discriminate. }
  intros [= ->].
  destruct (parseRecords_inl_split _ _ _ _ Hrun)
    as (skipped & rec & rest & Hsplit & Hskip & Hrec).
  pose proof (sortSlice_StronglySorted records) as Hsorted.
  pose proof (sortSlice_Permutation records) as Hperm.
  rewrite Hsplit in Hsorted, Hperm.
  exists rec. split; [|split; [assumption|]].
  - apply list_elem_of_In. rewrite <- Hperm. apply elem_of_app. right. now left.
  - intros rec' cn' Hin Hrec'.
    apply list_elem_of_In in Hin. rewrite <- Hperm in Hin.
    apply StronglySorted_app in Hsorted as (_ & _ & Htail).
    apply StronglySorted_cons in Htail as [Hle _].
    apply elem_of_app in Hin as [Hin|Hin].
    + rewrite Forall_forall in Hskip. destruct (Hskip rec' Hin) as [pe Hpe].
      congruence.
    + apply elem_of_cons in Hin as [->|Hin]; [apply srvLe_refl|].
      rewrite Forall_forall in Hle. now apply Hle.
Qed.

(** X3. The result of [queryDNS] depends only on the error of the lookup
    and on which (priority, target) pairs the answer has and how often: two
    answers with the same pairs, in any order and with any weights and
    ports, give the same result. *)
Theorem queryDNS_order_weight_port_irrelevant
    (r1 r2 : DNSInstanceConnectionNameResolver R) (domainName cname1 cname2 : string)
    (records1 records2 : list SRV) (err : option error) (dns1 dns2 : R) :
  LookupSRV (dnsResolver r1) EmptyString EmptyString domainName
    = ((cname1, records1, err), dns1) ->
  LookupSRV (dnsResolver r2) EmptyString EmptyString domainName
    = ((cname2, records2, err), dns2) ->
  srvKey <$> records1 ≡ₚ srvKey <$> records2 ->
  fst (queryDNS domainName r1) = fst (queryDNS domainName r2).
Proof.
  intros Hlookup1 Hlookup2 Hkeys.
  unfold queryDNS, queryDNSWith, bind, ret, callLookupSRV.
  rewrite Hlookup1, Hlookup2. simpl. unfold selectRecord.
  rewrite (parseRecords_targets domainName (sortSlice records1) (sortSlice records2));
    [reflexivity|].
  assert (srvKey <$> sortSlice records1 = srvKey <$> sortSlice records2) as Hsame.
  { apply (StronglySorted_unique keyLe).
    - eapply StronglySorted_fmap; [|apply sortSlice_StronglySorted]. auto.
    - eapply StronglySorted_fmap; [|apply sortSlice_StronglySorted]. auto.
    - now rewrite !sortSlice_Permutation. }
  assert (forall l, Target <$> l = snd <$> (srvKey <$> l)) as Htargets
    by (intros l; rewrite <- list_fmap_compose; reflexivity).
  now rewrite !Htargets, Hsame.
Qed.


(** X5. The loop of [queryDNS] does not see trailing dots: two lists of
    records whose targets, one by one, are the same name followed by any
    number of dots give the same result. *)
Theorem parseRecords_trailing_dots (domainName : string) (l1 l2 : list SRV)
    (perr : option error) :
  Forall2 (fun a b => exists t n m,
             endsWithDot t = false /\
             Target a = t ++ dots n /\ Target b = t ++ dots m) l1 l2 ->
  parseRecords domainName l1 perr = parseRecords domainName l2 perr.
Proof.
  intros Hsame. revert perr.
  induction Hsame as [|a b l1 l2 (t & n & m & Hend & Ha & Hb) _ IH]; intros perr;
    [reflexivity|].
  simpl. rewrite Ha, Hb, !TrimRight_app_dots by assumption.
  destruct (ParseConnName t); [reflexivity|apply IH].
Qed.
End ResolverMore.

(** * More of the dialer *)

(** Every way [Dial] can run, as before: unfold it and split on what each
    collaborator answers. *)
Ltac dial_unfold :=
  unfold Dial, Dial_spanned, Dial_connect, Dialer_instance, instance_RLock,
    instance_Lock, forceRefresh, call, emit, go, setInstance, setOutside,
    newInstrumentedConn, bind, ret, gets, modify in *.

Ltac dial_case :=
  match goal with
  | Hrun : context [match ?x with _ => _ end] |- _ =>
      lazymatch x with
      | context [match _ with _ => _ end] => fail
      | _ => destruct x eqn:?; simpl in Hrun
      end
  end.

Ltac dial_runs Hrun :=
  unfold eventsSince, dialConfig in *; dial_unfold; simpl in Hrun;
  repeat dial_case;
  simplify_eq; simpl in *;
  rewrite <- ?app_assoc, ?drop_app_length in *; simpl in *.

Ltac log_entry :=
  repeat match goal with
         | Hin : _ \/ _ |- _ => destruct Hin as [Hin|Hin]
         end;
  simplify_eq; try contradiction.

(** Close a path whose conclusion also follows the outside world. *)
Ltac world_path :=
  unfold reachesHandshake, reachesConnect, dialConfig;
  repeat first [eexists | split]; try reflexivity; try eassumption;
  try apply lookup_insert_eq;
  try solve [left; split; [eassumption|reflexivity]];
  try solve [right; split; eassumption];
  try solve [simpl; auto 14].

Section DialerMore.
Context {E : Type} `{Collaborators E}.

(** X6. Whatever happens in a call of [Dial], every trace span it starts
    is ended, the innermost first, and the spans [Connect] and [Dial] end
    with the error that [Dial] returns. The span [Connect] is started only
    when [ConnectInfo] has succeeded. *)
Theorem Dial_spans_are_ended (d : Dialer E) (instance : string)
    (opts : list DialOption) (w w' : World E) (res : instrumentedConn + error) :
  Dial d instance opts w = (res, w') ->
  (startedSpans (eventsSince w w') = [spanDial; spanInstanceInfo] /\
   endedSpans (eventsSince w w')
   = [(spanInstanceInfo, errOf res); (spanDial, errOf res)] /\
   dialFuncCalls (eventsSince w w') = [] /\
   exists err, res = inr err) \/
  (startedSpans (eventsSince w w') = [spanDial; spanInstanceInfo; spanConnect] /\
   endedSpans (eventsSince w w')
   = [(spanInstanceInfo, None); (spanConnect, errOf res); (spanDial, errOf res)] /\
   exists i ip addr tlsCfg,
     In (EvConnectInfo i ip (inl (addr, tlsCfg))) (eventsSince w w')).
Proof.
  intros Hrun. dial_runs Hrun.
  all: first
    [ left; repeat split; try reflexivity; eexists; reflexivity
    | right; repeat split; try reflexivity; eexists _, _, _, _; simpl; auto 10 ].
Qed.

(** X7. A call of [Dial] that returns an error has not started a goroutine
    and has not changed a counter: a failed dial is never counted as an open
    connection. *)
Theorem Dial_failure_is_not_counted (d : Dialer E) (instance : string)
    (opts : list DialOption) (w w' : World E) (err : error) :
  Dial d instance opts w = (inr err, w') ->
  goroutines w' = goroutines w /\ openConns w' = openConns w.
Proof.
  intros Hrun. dial_runs Hrun. all: split; reflexivity.
Qed.

(** X8. When the registry has a provider for the identifier, [Dial] uses
    it: it does not call [cloudsql.NewInstance], it leaves the registry as it
    is, and its one call of [ConnectInfo] is on that provider, with the IP
    type of the configuration of the call. *)
Theorem Dial_reuses_provider (d : Dialer E) (instance : string)
    (opts : list DialOption) (w w' : World E) (res : instrumentedConn + error)
    (i : Instance) :
  instances w !! instance = Some i ->
  Dial d instance opts w = (res, w') ->
  newInstanceCalls (eventsSince w w') = [] /\
  instances w' = instances w /\
  connectInfoCalls (eventsSince w w') = [(i, ipType (dialConfig d opts))].
Proof.
  intros Hentry Hrun. dial_runs Hrun. all: repeat split; reflexivity.
Qed.

(** X9. [Dial] never removes or replaces an entry of the registry, and it
    touches no entry but the one of the identifier it dials. If it builds a
    provider, the provider is in the registry when [Dial] returns, also when
    the dial then fails. *)
Theorem Dial_registry_grows (d : Dialer E) (instance : string)
    (opts : list DialOption) (w w' : World E) (res : instrumentedConn + error) :
  Dial d instance opts w = (res, w') ->
  instances w ⊆ instances w' /\
  (forall connName, connName <> instance ->
                    instances w' !! connName = instances w !! connName) /\
  (forall connName i,
     In (EvNewInstance connName (inl i)) (eventsSince w w') ->
     connName = instance /\
     instances w !! instance = None /\
     instances w' = <[instance := i]> (instances w)).
Proof.
  intros Hrun. dial_runs Hrun.
  all: split; [|split].
  all: try reflexivity.
  all: try (apply insert_subseteq; assumption).
  all: try (intros connName Hne; now rewrite ?lookup_insert_ne by congruence).
  all: intros connName built Hin; log_entry; auto.
Qed.

(** X10. When [cloudsql.NewInstance] fails in a call of [Dial], the call
    returns its error as it is, leaves the registry as it was, and calls
    neither [ConnectInfo] nor the dial function nor [ForceRefresh]. *)
Theorem Dial_new_instance_failure (d : Dialer E) (instance : string)
    (opts : list DialOption) (w w' : World E) (res : instrumentedConn + error)
    (connName : string) (err : error) :
  Dial d instance opts w = (res, w') ->
  In (EvNewInstance connName (inr err)) (eventsSince w w') ->
  res = inr err /\
  connName = instance /\
  instances w' = instances w /\
  connectInfoCalls (eventsSince w w') = [] /\
  dialFuncCalls (eventsSince w w') = [] /\
  forceRefreshCalls (eventsSince w w') = [].
Proof.
  intros Hrun Hin. dial_runs Hrun. all: log_entry. all: repeat split; reflexivity.
Qed.

(** X11. [Dial] sets keep-alive only on a TCP connection. When the dial
    function returns a connection of another kind, [Dial] calls neither
    [SetKeepAlive] nor [SetKeepAlivePeriod] and goes on to the handshake.
    When it returns a TCP connection, [Dial] enables keep-alive on it, and
    the period it then sets is the one of the configuration of the call. *)
Theorem Dial_keep_alive_only_on_TCP (d : Dialer E) (instance : string)
    (opts : list DialOption) (w w' : World E) (res : instrumentedConn + error)
    (addr : string) (conn : netConn) :
  Dial d instance opts w = (res, w') ->
  In (EvDialFunc "tcp" addr (inl conn)) (eventsSince w w') ->
  match conn with
  | TCPConn _ =>
      keepAliveCalls (eventsSince w w') = [(conn, true)] /\
      (keepAlivePeriodCalls (eventsSince w w') = [] \/
       keepAlivePeriodCalls (eventsSince w w')
       = [(conn, tcpKeepAlive (dialConfig d opts))])
  | _ =>
      keepAliveCalls (eventsSince w w') = [] /\
      keepAlivePeriodCalls (eventsSince w w') = [] /\
      exists tlsCfg, handshakeCalls (eventsSince w w') = [TLSClient conn tlsCfg]
  end.
Proof.
  intros Hrun Hin. dial_runs Hrun. all: log_entry.
  all: repeat first [split | eexists]; auto.
Qed.

(** X12. When [Dial] succeeds, the connection it returns wraps the TLS
    client connection made of the connection that the dial function returned
    and the TLS configuration that [ConnectInfo] returned; the dial function
    was called once, on the address that [ConnectInfo] returned joined with
    port 3307; the handshake succeeded; and [Dial] has called neither
    [ForceRefresh] nor [Close]. The outside world that [Dial] leaves is the
    one the successful handshake left, with the clock read once more for the
    latency that the started goroutine reports. *)
Theorem Dial_success_shape (d : Dialer E) (instance : string)
    (opts : list DialOption) (w w' : World E) (ic : instrumentedConn) :
  Dial d instance opts w = (inl ic, w') ->
  exists i addr tlsCfg conn,
    instances w' !! instance = Some i /\
    In (EvConnectInfo i (ipType (dialConfig d opts)) (inl (addr, tlsCfg)))
       (eventsSince w w') /\
    dialFuncCalls (eventsSince w w') = [("tcp", JoinHostPort addr serverProxyPort)] /\
    In (EvDialFunc "tcp" (JoinHostPort addr serverProxyPort) (inl conn))
       (eventsSince w w') /\
    Conn ic = TLSClient conn tlsCfg /\
    In (EvHandshake (TLSClient conn tlsCfg) None) (eventsSince w w') /\
    forceRefreshCalls (eventsSince w w') = [] /\
    closeCalls (eventsSince w w') = [] /\
    exists startTime eh e1 elapsed,
      reachesHandshake d instance opts w startTime i conn tlsCfg eh /\
      Handshake (TLSClient conn tlsCfg) eh = (None, e1) /\
      time_Since startTime e1 = (elapsed, outside w') /\
      goroutines w'
      = (goroutines w ++ [incOpenConns instance (Milliseconds elapsed)])%list.
Proof.
  intros Hrun. dial_runs Hrun. all: world_path.
Qed.

(** X13. A call of [Dial] never tries a step twice: it calls
    [cloudsql.NewInstance], [ConnectInfo], the dial function, the handshake
    and [ForceRefresh] at most once each. It calls [ForceRefresh] exactly
    when the dial function or the handshake has failed, and the call is
    made: the outside world that [Dial] leaves is the one in which the dial
    function failed with [ForceRefresh] applied to it, or the one in which
    the handshake failed with [ForceRefresh] applied to it and the TLS
    connection then closed. *)
Theorem Dial_never_retries (d : Dialer E) (instance : string)
    (opts : list DialOption) (w w' : World E) (res : instrumentedConn + error) :
  Dial d instance opts w = (res, w') ->
  length (newInstanceCalls (eventsSince w w')) <= 1 /\
  length (connectInfoCalls (eventsSince w w')) <= 1 /\
  length (dialFuncCalls (eventsSince w w')) <= 1 /\
  length (handshakeCalls (eventsSince w w')) <= 1 /\
  length (forceRefreshCalls (eventsSince w w')) <= 1 /\
  (forceRefreshCalls (eventsSince w w') <> [] <->
   (exists network addr err,
      In (EvDialFunc network addr (inr err)) (eventsSince w w')) \/
   (exists c err, In (EvHandshake c (Some err)) (eventsSince w w'))) /\
  (forall i,
     In (EvForceRefresh i) (eventsSince w w') ->
     exists e1,
       (exists addr e0 err,
          In (EvDialFunc "tcp" addr (inr err)) (eventsSince w w') /\
          dialFunc d "tcp" addr e0 = (inr err, e1) /\
          outside w' = ForceRefresh i e1) \/
       (exists c err eh closeRes,
          In (EvHandshake c (Some err)) (eventsSince w w') /\
          Handshake c eh = (Some err, e1) /\
          Conn_Close c (ForceRefresh i e1) = (closeRes, outside w'))).
Proof.
  intros Hrun. dial_runs Hrun.
  all: repeat (split; [simpl; lia|]).
  all: split;
    [ split;
      [ intros Hcalls;
        first [ now elim Hcalls
              | solve [left; eexists _, _, _; simpl; auto 12]
              | solve [right; eexists _, _; simpl; auto 14] ]
      | intros [(network & addr & err & Hin)|(c & err & Hin)];
        log_entry; discriminate ]
    | intros built Hin; log_entry; eexists;
      first [ solve [left; eexists _, _, _; split; [simpl; auto 14|];
                     split; [eassumption|reflexivity]]
            | solve [right; eexists _, _, _, _; split; [simpl; auto 14|];
                     split; eassumption] ] ].
Qed.
End DialerMore.

(** * Goroutines and the counters *)

Lemma wrap64_add (a b : Z) : wrap64 (wrap64 a + b) = wrap64 (a + b).
Proof.
  unfold wrap64. f_equal.
  replace ((a + 2 ^ 63) mod 2 ^ 64 - 2 ^ 63 + b + 2 ^ 63)%Z
    with ((a + 2 ^ 63) mod 2 ^ 64 + b)%Z by lia.
  rewrite Zplus_mod_idemp_l. f_equal. lia.
Qed.

Lemma wrap64_isInt64 (z : Z) : isInt64 z -> wrap64 z = z.
Proof.
  unfold isInt64, wrap64. intros Hz. rewrite Z.mod_small; lia.
Qed.

Lemma netDelta_Permutation (instance : string) (l1 l2 : list Task) :
  l1 ≡ₚ l2 -> netDelta instance l1 = netDelta instance l2.
Proof.
  induction 1 as [|t l1 l2 _ IH|t1 t2 l|l1 l2 l3 _ IH1 _ IH2]; simpl; lia.
Qed.

Lemma touches_Permutation (instance : string) (l1 l2 : list Task) :
  l1 ≡ₚ l2 -> touches instance l1 = touches instance l2.
Proof.
  unfold touches.
  induction 1 as [|t l1 l2 _ IH|t1 t2 l|l1 l2 l3 _ IH1 _ IH2]; simpl;
    [reflexivity|now rewrite IH| |congruence].
  destruct (String.eqb (taskInstance t1) instance),
    (String.eqb (taskInstance t2) instance); reflexivity.
Qed.

Lemma netDelta_untouched (instance : string) (l : list Task) :
  touches instance l = false -> netDelta instance l = 0%Z.
Proof.
  unfold touches. induction l as [|t l IH]; simpl; [reflexivity|].
  destruct (String.eqb (taskInstance t) instance); simpl; [discriminate|].
  intros Hl. now rewrite IH.
Qed.

Lemma counterAfter_cons (instance : string) (t : Task) (ran : list Task) (x : Z) :
  counterAfter instance ran (counterAfter instance [t] x)
  = counterAfter instance (t :: ran) x.
Proof.
  unfold counterAfter, touches. simpl.
  destruct (String.eqb (taskInstance t) instance) eqn:Ht; simpl.
  - destruct (existsb _ ran) eqn:Hran.
    + rewrite wrap64_add. f_equal. lia.
    + fold (touches instance ran) in Hran.
      rewrite (netDelta_untouched _ _ Hran). reflexivity.
  - destruct (existsb _ ran); [f_equal; lia|reflexivity].
Qed.

Section GoroutinesMore.
Context {E : Type} `{Collaborators E}.

Lemma schedule_runs_one (d : Dialer E) (n : nat) (w w' : World E) :
  schedule d n w = Some w' ->
  exists t,
    goroutines w !! n = Some t /\
    goroutines w ≡ₚ t :: goroutines w' /\
    instances w' = instances w /\
    forall instance,
      counter w' instance = counterAfter instance [t] (counter w instance).
Proof.
  unfold schedule. destruct (goroutines w !! n) as [t|] eqn:Hn; [|discriminate].
  intros [= <-]. exists t. split; [reflexivity|]. split; [|split].
  - rewrite <- (take_drop_middle _ _ _ Hn) at 1.
    destruct t; simpl; now rewrite Permutation_middle.
  - destruct t; reflexivity.
  - intros instance. unfold counterAfter, touches, counter.
    destruct t as [inst latency|inst]; simpl;
      (destruct (String.eqb_spec inst instance) as [->|Hne]; simpl;
       [rewrite lookup_insert_eq; simpl; f_equal; lia
       |now rewrite lookup_insert_ne by assumption]).
Qed.

Lemma scheduleAll_counters (d : Dialer E) (picks : list nat) (w w' : World E) :
  scheduleAll d picks w = Some w' ->
  exists ran,
    goroutines w ≡ₚ (ran ++ goroutines w')%list /\
    instances w' = instances w /\
    forall instance,
      counter w' instance = counterAfter instance ran (counter w instance).
Proof.
  revert w. induction picks as [|n rest IH]; intros w Hrun; simpl in Hrun.
  - injection Hrun as <-. exists []. repeat split; reflexivity.
  - destruct (schedule d n w) as [w1|] eqn:Hstep; [|discriminate].
    destruct (schedule_runs_one d n w w1 Hstep) as (t & _ & Hperm & Hreg & Hone).
    destruct (IH w1 Hrun) as (ran & Hperm' & Hreg' & Hrest).
    exists (t :: ran). split; [|split].
    + rewrite Hperm, Hperm'. reflexivity.
    + congruence.
    + intros instance. rewrite Hrest, Hone. apply counterAfter_cons.
Qed.

Lemma Dial_success_effects (d : Dialer E) (instance : string)
    (opts : list DialOption) (w w' : World E) (ic : instrumentedConn) :
  Dial d instance opts w = (inl ic, w') ->
  openConns w' = openConns w /\
  closeFunc ic = decOpenConns instance /\
  exists latency,
    goroutines w' = (goroutines w ++ [incOpenConns instance latency])%list.
Proof.
  intros Hrun. dial_runs Hrun. all: repeat first [eexists | split]; reflexivity.
Qed.

Lemma instrumentedConn_Close_success (ic : instrumentedConn) (w w' : World E) :
  instrumentedConn_Close ic w = (None, w') ->
  openConns w' = openConns w /\
  instances w' = instances w /\
  goroutines w' = (goroutines w ++ [closeFunc ic])%list.
Proof.
  unfold instrumentedConn_Close, call, emit, go, setOutside, bind, ret, modify.
  destruct (Conn_Close (Conn ic) (outside w)) as [[err|] e']; simpl;
    intros Hrun; simplify_eq; auto.
Qed.

(** X14. Once all the goroutines that have been started have run, every
    counter is where it was plus the number of pending increments minus the
    number of pending decrements for its identifier, in [int64] arithmetic,
    in whatever order the scheduler has picked them; a counter that no
    pending goroutine names is as it was. Running goroutines never changes
    the registry. *)
Theorem counters_do_not_depend_on_schedule (d : Dialer E) (picks : list nat)
    (w w' : World E) :
  scheduleAll d picks w = Some w' ->
  goroutines w' = [] ->
  instances w' = instances w /\
  forall instance,
    counter w' instance
    = if touches instance (goroutines w)
      then wrap64 (counter w instance + netDelta instance (goroutines w))
      else counter w instance.
Proof.
  intros Hrun Hdone.
  destruct (scheduleAll_counters d picks w w' Hrun) as (ran & Hperm & Hreg & Hcount).
  rewrite Hdone, app_nil_r in Hperm. split; [assumption|].
  intros instance. rewrite Hcount. unfold counterAfter.
  now rewrite (touches_Permutation _ _ _ Hperm), (netDelta_Permutation _ _ _ Hperm).
Qed.

(** X15. A dial that succeeds followed by a close that succeeds leaves the
    counters, once all goroutines have run, where they would have been
    without the two: the increment and the decrement cancel, in whatever
    order they run, also when the decrement runs first. *)
Theorem dial_then_close_is_balanced (d : Dialer E) (instance : string)
    (opts : list DialOption) (picks : list nat) (w w1 w2 w3 : World E)
    (ic : instrumentedConn) :
  isInt64 (counter w instance) ->
  Dial d instance opts w = (inl ic, w1) ->
  instrumentedConn_Close ic w1 = (None, w2) ->
  scheduleAll d picks w2 = Some w3 ->
  goroutines w3 = [] ->
  forall connName,
    counter w3 connName
    = if touches connName (goroutines w)
      then wrap64 (counter w connName + netDelta connName (goroutines w))
      else counter w connName.
Proof.
  intros Hrange Hdial Hclose Hrun Hdone connName.
  destruct (Dial_success_effects _ _ _ _ _ _ Hdial) as (Hconns1 & Hcf & latency & Hgo1).
  destruct (instrumentedConn_Close_success _ _ _ Hclose) as (Hconns2 & _ & Hgo2).
  destruct (scheduleAll_counters d picks w2 w3 Hrun) as (ran & Hperm & _ & Hcount).
  rewrite Hdone, app_nil_r, Hgo2, Hgo1, Hcf in Hperm.
  rewrite Hcount. unfold counterAfter.
  rewrite <- (touches_Permutation _ _ _ Hperm), <- (netDelta_Permutation _ _ _ Hperm).
  assert (counter w2 connName = counter w connName) as ->
    by (unfold counter; now rewrite Hconns2, Hconns1).
  assert (forall l, netDelta connName (l ++ [incOpenConns instance latency;
                                               decOpenConns instance])
                    = netDelta connName l) as Hnet.
  { induction l as [|t l IHl]; simpl; [|rewrite IHl; reflexivity].
    destruct (String.eqb instance connName); reflexivity. }
  assert (forall l, touches connName (l ++ [incOpenConns instance latency;
                                              decOpenConns instance])
                    = touches connName l || String.eqb instance connName) as Htouch.
  { unfold touches. intros l. rewrite existsb_app. simpl.
    destruct (String.eqb instance connName); reflexivity. }
  rewrite <- !app_assoc. simpl. rewrite Hnet, Htouch.
  destruct (touches connName (goroutines w)) eqn:Htouched; simpl; [reflexivity|].
  destruct (String.eqb_spec instance connName) as [<-|Hne]; [|reflexivity].
  rewrite (netDelta_untouched _ _ Htouched), Z.add_0_r.
  now apply wrap64_isInt64.
Qed.

(** X16. [Close] keeps no record of having run: each call whose wrapped
    [Close] returns no error starts the callback, so two such calls on one
    connection start it twice. *)
Theorem instrumentedConn_Close_twice (ic : instrumentedConn) (w w1 w2 : World E) :
  instrumentedConn_Close ic w = (None, w1) ->
  instrumentedConn_Close ic w1 = (None, w2) ->
  goroutines w2 = (goroutines w ++ [closeFunc ic; closeFunc ic])%list.
Proof.
  intros Hfirst Hsecond.
  destruct (instrumentedConn_Close_success _ _ _ Hfirst) as (_ & _ & Hgo1).
  destruct (instrumentedConn_Close_success _ _ _ Hsecond) as (_ & _ & Hgo2).
  rewrite Hgo2, Hgo1, <- app_assoc. reflexivity.
Qed.
End GoroutinesMore.

(** * The life of a dialer *)

Ltac pkg_unfold :=
  unfold NewDialer, getDefaultKeys, callPkg, lifeSince, bind, ret in *.

Ltac pkg_runs Hrun :=
  pkg_unfold; simpl in Hrun;
  repeat dial_case;
  simplify_eq; simpl in *;
  rewrite <- ?app_assoc, ?drop_app_length, ?drop_all in *; simpl in *.

Section LifecycleMore.
Context {E : Type} `{Lifecycle E}.

Lemma applyDialerOptions_app (pre post : list (DialerOption E))
    (cfg cfg' : dialerConfig E) :
  applyDialerOptions pre cfg = inl cfg' ->
  applyDialerOptions (pre ++ post) cfg = applyDialerOptions post cfg'.
Proof.
  revert cfg. induction pre as [|opt pre IH]; intros cfg Hpre; simpl in *.
  - now injection Hpre as ->.
  - destruct (cfg_err (opt cfg)); [discriminate|]. now apply IH.
Qed.

(** X17. [getDefaultKeys] generates at most once: after a first call, a
    call returns what the first returned and changes nothing, so it does not
    run [rsa.GenerateKey] again, also when the first call returned an
    error. *)
Theorem getDefaultKeys_generates_once (p : Package E) :
  getDefaultKeys (snd (getDefaultKeys p))
  = (fst (getDefaultKeys p), snd (getDefaultKeys p)) /\
  keyOnceDone (snd (getDefaultKeys p)) = true /\
  length (keyGenerations (lifeSince (pkgLog p) (pkgLog (snd (getDefaultKeys p))))) <= 1.
Proof.
  unfold getDefaultKeys, lifeSince.
  destruct (keyOnceDone p) eqn:Hdone; simpl.
  - rewrite Hdone, drop_all. simpl. repeat split; auto.
  - destruct (rsa_GenerateKey 2048 (pkgOutside p)) as [[k err] e']. simpl.
    rewrite drop_app_length. simpl. repeat split; auto.
Qed.

(** X18. When an option leaves an error in the configuration, [NewDialer]
    returns that error: the options after it are not applied, and no
    collaborator is called, so no key is generated and no client, token
    source or goroutine is made. *)
Theorem NewDialer_option_error (pre post : list (DialerOption E))
    (opt : DialerOption E) (cfg : dialerConfig E) (e : error) (p : Package E) :
  applyDialerOptions pre defaultDialerConfig = inl cfg ->
  cfg_err (opt cfg) = Some e ->
  NewDialer (pre ++ opt :: post) p = (inr (OfOption e), p).
Proof.
  intros Hpre Hopt. unfold NewDialer.
  rewrite (applyDialerOptions_app pre (opt :: post) _ _ Hpre). simpl.
  now rewrite Hopt.
Qed.

(** X19. The token source of the dialer that [NewDialer] builds: none when
    IAM authentication is not enabled, also when an option has set one; the
    one an option has set when it is enabled, without a call of
    [google.DefaultTokenSource]; the default one, from one such call for the
    SQL admin scope, when it is enabled and no option has set one. *)
Theorem NewDialer_token_source (opts : list (DialerOption E))
    (cfg : dialerConfig E) (p p' : Package E) (dv : DialerValue E) :
  applyDialerOptions opts defaultDialerConfig = inl cfg ->
  NewDialer opts p = (inl dv, p') ->
  match cfg_useIAMAuthN cfg, cfg_tokenSource cfg with
  | false, _ =>
      iamTokenSource (dv_dialer dv) = None /\
      tokenSourceCalls (lifeSince (pkgLog p) (pkgLog p')) = []
  | true, Some ts =>
      iamTokenSource (dv_dialer dv) = Some ts /\
      tokenSourceCalls (lifeSince (pkgLog p) (pkgLog p')) = []
  | true, None =>
      exists ts,
        iamTokenSource (dv_dialer dv) = Some ts /\
        lifeSince (pkgLog p) (pkgLog p')
        !! 0%nat = Some (LvDefaultTokenSource SqlserviceAdminScope (inl ts)) /\
        tokenSourceCalls (lifeSince (pkgLog p) (pkgLog p')) = [inl ts]
  end.
Proof.
  intros Hcfg Hrun. unfold NewDialer in Hrun. rewrite Hcfg in Hrun.
  destruct (cfg_useIAMAuthN cfg) eqn:Hiam, (cfg_tokenSource cfg) as [ts|] eqn:Hts.
  all: pkg_runs Hrun.
  all: repeat first [eexists | split]; reflexivity.
Qed.

(** X20. [NewDialer] starts the reporter exactly when it succeeds: once,
    under the ID of the new dialer, as its last step. The dialer then has an
    empty registry, no counters and an open channel [done]. A [NewDialer]
    that returns an error has started no goroutine. *)
Theorem NewDialer_starts_reporter (opts : list (DialerOption E)) (p : Package E) :
  match fst (NewDialer opts p) with
  | inl dv =>
      reportersStarted (lifeSince (pkgLog p) (pkgLog (snd (NewDialer opts p))))
      = [dialerID (dv_dialer dv)] /\
      last (pkgLog (snd (NewDialer opts p)))
      = Some (LvGoReportOpenConns (dialerID (dv_dialer dv))) /\
      dv_instances dv = ∅ /\ dv_openConns dv = ∅ /\ dv_doneClosed dv = false
  | inr _ =>
      reportersStarted (lifeSince (pkgLog p) (pkgLog (snd (NewDialer opts p)))) = []
  end.
Proof.
  destruct (NewDialer opts p) as [res p'] eqn:Hrun. simpl.
  unfold NewDialer in Hrun.
  destruct (applyDialerOptions opts defaultDialerConfig) as [cfg|e].
  2: { unfold ret in Hrun. simplify_eq. unfold lifeSince. now rewrite drop_all. }
  pkg_runs Hrun.
  all: repeat split; try reflexivity.
  all: rewrite last_app; reflexivity.
Qed.

(** What a call of [NewDialer] that needs the default key does to the
    package variables. *)
Lemma NewDialer_default_key (opts : list (DialerOption E)) (cfg : dialerConfig E)
    (p p' : Package E) (res : DialerValue E + dialerError) :
  applyDialerOptions opts defaultDialerConfig = inl cfg ->
  cfg_rsaKey cfg = nilPtr ->
  NewDialer opts p = (res, p') ->
  (keyOnceDone p = true ->
   keyOnceDone p' = true /\ defaultKey p' = defaultKey p /\
   defaultKeyErr p' = defaultKeyErr p /\
   keyGenerations (lifeSince (pkgLog p) (pkgLog p')) = []) /\
  (forall dv, res = inl dv ->
              keyOnceDone p' = true /\ defaultKey p' = key (dv_dialer dv) /\
              defaultKeyErr p' = None) /\
  (forall e, res = inr (Errorf_v "failed to generate RSA keys: %v" e) ->
             keyOnceDone p' = true /\ defaultKeyErr p' = Some e) /\
  (defaultKeyErr p' = None \/
   (exists e, res = inr (Errorf_v "failed to generate RSA keys: %v" e)) \/
   (exists e', res = inr (Errorf_v "failed to create token source: %v" e'))).
Proof.
  intros Hcfg Hkey Hrun. unfold NewDialer in Hrun. rewrite Hcfg, Hkey in Hrun.
  pkg_runs Hrun.
  all: repeat split; try congruence; try discriminate.
  all: try (intros; simplify_eq; repeat split; congruence).
  all: try solve [left; congruence].
  all: try solve [right; left; eexists; reflexivity].
  all: try solve [right; right; eexists; reflexivity].
Qed.

(** X21. Dialers that are built without a key of their own share one key:
    the second [NewDialer] generates nothing and its dialer has the key of
    the first. *)
Theorem NewDialer_shares_default_key (opts1 opts2 : list (DialerOption E))
    (cfg1 cfg2 : dialerConfig E) (p p1 p2 : Package E) (dv1 dv2 : DialerValue E) :
  applyDialerOptions opts1 defaultDialerConfig = inl cfg1 ->
  cfg_rsaKey cfg1 = nilPtr ->
  applyDialerOptions opts2 defaultDialerConfig = inl cfg2 ->
  cfg_rsaKey cfg2 = nilPtr ->
  NewDialer opts1 p = (inl dv1, p1) ->
  NewDialer opts2 p1 = (inl dv2, p2) ->
  key (dv_dialer dv2) = key (dv_dialer dv1) /\
  keyGenerations (lifeSince (pkgLog p1) (pkgLog p2)) = [].
Proof.
  intros Hcfg1 Hkey1 Hcfg2 Hkey2 Hrun1 Hrun2.
  destruct (NewDialer_default_key _ _ _ _ _ Hcfg1 Hkey1 Hrun1) as (_ & Hok1 & _).
  destruct (Hok1 dv1 eq_refl) as (Hdone & Hk1 & _).
  destruct (NewDialer_default_key _ _ _ _ _ Hcfg2 Hkey2 Hrun2) as (Hkeep & Hok2 & _).
  destruct (Hkeep Hdone) as (_ & Hsame & _ & Hnone).
  destruct (Hok2 dv2 eq_refl) as (_ & Hk2 & _).
  split; [congruence|assumption].
Qed.

(** X22. A failure to generate the default key is permanent: once
    [NewDialer] has returned "failed to generate RSA keys", every later
    [NewDialer] without a key of its own fails, with the same error unless
    the token source fails first, and key generation is not tried again. *)
Theorem NewDialer_key_failure_is_permanent (opts1 opts2 : list (DialerOption E))
    (cfg1 cfg2 : dialerConfig E) (p p1 : Package E) (e : error) :
  applyDialerOptions opts1 defaultDialerConfig = inl cfg1 ->
  cfg_rsaKey cfg1 = nilPtr ->
  NewDialer opts1 p = (inr (Errorf_v "failed to generate RSA keys: %v" e), p1) ->
  applyDialerOptions opts2 defaultDialerConfig = inl cfg2 ->
  cfg_rsaKey cfg2 = nilPtr ->
  (fst (NewDialer opts2 p1) = inr (Errorf_v "failed to generate RSA keys: %v" e) \/
   exists e', fst (NewDialer opts2 p1)
              = inr (Errorf_v "failed to create token source: %v" e')) /\
  keyGenerations (lifeSince (pkgLog p1) (pkgLog (snd (NewDialer opts2 p1)))) = [].
Proof.
  intros Hcfg1 Hkey1 Hrun1 Hcfg2 Hkey2.
  destruct (NewDialer_default_key _ _ _ _ _ Hcfg1 Hkey1 Hrun1) as (_ & _ & Hfail & _).
  destruct (Hfail e eq_refl) as (Hdone & Herr).
  destruct (NewDialer opts2 p1) as [res p2] eqn:Hrun2. simpl.
  destruct (NewDialer_default_key _ _ _ _ _ Hcfg2 Hkey2 Hrun2) as (Hkeep & _ & _ & Hres).
  destruct (Hkeep Hdone) as (_ & _ & Herr2 & Hnone).
  split; [|assumption].
  destruct Hres as [Hok|[(e2 & ->)|(e' & ->)]].
  - congruence.
  - left. f_equal. f_equal.
    destruct (NewDialer_default_key _ _ _ _ _ Hcfg2 Hkey2 Hrun2) as (_ & _ & Hfail2 & _).
    destruct (Hfail2 e2 eq_refl) as (_ & He2). congruence.
  - right. eauto.
Qed.

(** X23. A dialer that is built with a key of its own has that key;
    [NewDialer] then does not touch the default key: it generates nothing
    and leaves the package variables as they were. *)
Theorem NewDialer_own_key (opts : list (DialerOption E)) (cfg : dialerConfig E)
    (p p' : Package E) (res : DialerValue E + dialerError) :
  applyDialerOptions opts defaultDialerConfig = inl cfg ->
  cfg_rsaKey cfg <> nilPtr ->
  NewDialer opts p = (res, p') ->
  keyOnceDone p' = keyOnceDone p /\
  defaultKey p' = defaultKey p /\
  defaultKeyErr p' = defaultKeyErr p /\
  keyGenerations (lifeSince (pkgLog p) (pkgLog p')) = [] /\
  forall dv, res = inl dv -> key (dv_dialer dv) = cfg_rsaKey cfg.
Proof.
  intros Hcfg Hkey Hrun. unfold NewDialer in Hrun. rewrite Hcfg in Hrun.
  apply N.eqb_neq in Hkey. rewrite Hkey in Hrun.
  pkg_runs Hrun.
  all: repeat split; try reflexivity; intros; simplify_eq; reflexivity.
Qed.

(** X24. The steps of [NewDialer] fail in order and each failure ends the
    call. When [google.DefaultTokenSource] fails, [NewDialer] returns
    "failed to create token source" with its error, and has neither asked
    for a key nor made a client. When [sqladmin.NewService] fails,
    [NewDialer] returns "failed to create sqladmin client" with its error. *)
Theorem NewDialer_collaborator_failure (opts : list (DialerOption E))
    (p p' : Package E) (res : DialerValue E + dialerError) :
  NewDialer opts p = (res, p') ->
  (forall scope err,
     In (LvDefaultTokenSource scope (inr err)) (lifeSince (pkgLog p) (pkgLog p')) ->
     res = inr (Errorf_v "failed to create token source: %v" err) /\
     keyGenerations (lifeSince (pkgLog p) (pkgLog p')) = [] /\
     newServiceCalls (lifeSince (pkgLog p) (pkgLog p')) = [] /\
     keyOnceDone p' = keyOnceDone p) /\
  (forall clientOpts err,
     In (LvNewService clientOpts (inr err)) (lifeSince (pkgLog p) (pkgLog p')) ->
     res = inr (Errorf_v "failed to create sqladmin client: %v" err) /\
     newServiceCalls (lifeSince (pkgLog p) (pkgLog p')) = [clientOpts]).
Proof.
  intros Hrun. unfold NewDialer in Hrun.
  destruct (applyDialerOptions opts defaultDialerConfig) as [cfg|e].
  2: { unfold ret in Hrun. simplify_eq. unfold lifeSince. rewrite drop_all.
       split; intros ? ? []. }
  pkg_runs Hrun.
  all: split; intros ? ? Hin; log_entry; auto.
Qed.
End LifecycleMore.

(** * The reporter and [Dialer.Close] *)

Section ReporterMore.
Context {E : Type} `{Lifecycle E}.

Lemma closeInstances_effects (l : list Instance) (rt : Runtime E) :
  instances (world (fold_left closeInstance l rt)) = instances (world rt) /\
  openConns (world (fold_left closeInstance l rt)) = openConns (world rt) /\
  goroutines (world (fold_left closeInstance l rt)) = goroutines (world rt) /\
  log (world (fold_left closeInstance l rt)) = log (world rt) /\
  doneClosed (fold_left closeInstance l rt) = doneClosed rt /\
  life (fold_left closeInstance l rt) = (life rt ++ (LvInstanceClose <$> l))%list.
Proof.
  revert rt. induction l as [|i l IH]; intros rt; simpl.
  - rewrite app_nil_r. repeat split; reflexivity.
  - destruct (IH (closeInstance rt i)) as (-> & -> & -> & -> & -> & ->). simpl.
    rewrite <- app_assoc. repeat split; reflexivity.
Qed.

Lemma closeInstances_outside (l : list Instance) (rt : Runtime E) :
  outside (world (fold_left closeInstance l rt))
  = closedProviders l (outside (world rt)).
Proof.
  unfold closedProviders. revert rt.
  induction l as [|i l IH]; intros rt; simpl; [reflexivity|]. now rewrite IH.
Qed.

Lemma instanceCloses_fmap (l : list Instance) :
  instanceCloses (LvInstanceClose <$> l) = l.
Proof. induction l as [|i l IH]; simpl; [reflexivity|]. now f_equal. Qed.

Lemma reportTick_stopped (d : Dialer E) (rt : Runtime E) :
  doneClosed rt = true \/ ctx_Done (outside (world rt)) = true ->
  reportTick d rt = (false, rt).
Proof.
  unfold reportTick. intros [->| ->]; [reflexivity|].
  destruct (doneClosed rt); reflexivity.
Qed.

Lemma reportOpenConns_stopped (d : Dialer E) (ticks : nat) (rt : Runtime E) :
  doneClosed rt = true \/ ctx_Done (outside (world rt)) = true ->
  reportOpenConns d ticks rt = (tt, rt).
Proof.
  intros Hstop. destruct ticks as [|ticks]; [reflexivity|].
  simpl. unfold bind. now rewrite (reportTick_stopped d rt Hstop).
Qed.

(** X25. The reporter stops at the first tick after the channel [done] is
    closed or the context is cancelled: whatever the number of ticks, it
    records nothing and changes nothing. *)
Theorem reportOpenConns_stops (d : Dialer E) (ticks : nat) (rt : Runtime E) :
  doneClosed rt = true \/ ctx_Done (outside (world rt)) = true ->
  reportOpenConns d ticks rt = (tt, rt).
Proof.
  intros Hstop. destruct ticks as [|ticks]; [reflexivity|].
  simpl. unfold bind, reportTick.
  destruct Hstop as [->|Hctx]; [reflexivity|].
  rewrite Hctx. destruct (doneClosed rt); reflexivity.
Qed.

(** X26. While the channel [done] is open and the context is not cancelled,
    the reporter takes one snapshot per tick, and it changes neither the
    counters nor anything else of the world of the dialer. *)
Theorem reportOpenConns_one_snapshot_per_tick (d : Dialer E) (ticks : nat)
    (rt : Runtime E) :
  doneClosed rt = false ->
  ctx_Done (outside (world rt)) = false ->
  world (snd (reportOpenConns d ticks rt)) = world rt /\
  doneClosed (snd (reportOpenConns d ticks rt)) = false /\
  exists snaps,
    life (snd (reportOpenConns d ticks rt)) = (life rt ++ concat snaps)%list /\
    length snaps = ticks /\
    Forall (fun snap => snap ≡ₚ snapshot d (world rt)) snaps.
Proof.
  revert rt. induction ticks as [|ticks IH]; intros rt Hopen Hctx.
  - simpl. repeat split; auto. exists []. simpl. rewrite app_nil_r. auto.
  - destruct (IH (mkRuntime (world rt) (doneClosed rt)
                            (life rt ++ snapshot d (world rt))))
      as (Hworld & Hdone & snaps & Hlife & Hlen & Hall); [simpl; assumption..|].
    simpl. unfold bind, reportTick. rewrite Hopen, Hctx. rewrite Hopen in *.
    simpl in *. split; [assumption|]. split; [assumption|].
    exists (snapshot d (world rt) :: snaps). simpl.
    rewrite Hlife, <- app_assoc. repeat split; auto.
Qed.

(** X27. A snapshot has one record for each identifier that has an entry in
    the counters, with its counter, also when the counter is 0, under the
    ID of the dialer; it has nothing else. *)
Theorem snapshot_records (d : Dialer E) (w : World E) :
  length (snapshot d w) = size (openConns w) /\
  (forall ev, In ev (snapshot d w) ->
              exists instance conns,
                ev = LvRecordOpenConnections conns instance (dialerID d)) /\
  (forall instance conns id,
     In (LvRecordOpenConnections conns instance id) (snapshot d w) <->
     openConns w !! instance = Some conns /\ id = dialerID d).
Proof.
  unfold snapshot. split; [|split].
  - rewrite length_fmap. apply length_map_to_list.
  - intros ev Hin. apply list_elem_of_In, list_elem_of_fmap in Hin
      as ([instance conns] & -> & _). eauto.
  - intros instance conns id. rewrite <- list_elem_of_In, list_elem_of_fmap. split.
    + intros ([instance' conns'] & Heq & Hin). simpl in Heq. simplify_eq.
      now apply elem_of_map_to_list in Hin.
    + intros [Hentry ->]. exists (instance, conns). split; [reflexivity|].
      now apply elem_of_map_to_list.
Qed.

(** X28. The first [Close] of a dialer returns, closes each provider of the
    registry once, and closes the channel [done]. It leaves the registry and
    the counters as they are, and it does not touch the goroutines that have
    been started. The outside world it leaves is the one it found with the
    [Close] of each provider of the registry applied to it once, in the
    order of the log. *)
Theorem Dialer_Close_first (rt : Runtime E) :
  doneClosed rt = false ->
  fst (Dialer_Close rt) = Returns /\
  doneClosed (snd (Dialer_Close rt)) = true /\
  instanceCloses (lifeSince (life rt) (life (snd (Dialer_Close rt))))
  ≡ₚ snd <$> map_to_list (instances (world rt)) /\
  instances (world (snd (Dialer_Close rt))) = instances (world rt) /\
  openConns (world (snd (Dialer_Close rt))) = openConns (world rt) /\
  goroutines (world (snd (Dialer_Close rt))) = goroutines (world rt) /\
  outside (world (snd (Dialer_Close rt)))
  = closedProviders (instanceCloses (lifeSince (life rt) (life (snd (Dialer_Close rt)))))
                    (outside (world rt)).
Proof.
  intros Hopen. unfold Dialer_Close, lifeSince.
  destruct (closeInstances_effects (snd <$> map_to_list (instances (world rt))) rt)
    as (Hreg & Hconns & Hgo & _ & Hdone & Hlife).
  pose proof (closeInstances_outside (snd <$> map_to_list (instances (world rt))) rt)
    as Hout.
  rewrite Hdone, Hopen. simpl. rewrite Hlife, drop_app_length, instanceCloses_fmap.
  repeat split; auto.
Qed.

(** X29. A second [Close] of a dialer panics, at the close of the channel
    [done], after it has closed each provider of the registry once more:
    the outside world it leaves is the one the first [Close] left with the
    [Close] of each provider applied to it again. After any [Close], the
    reporter records nothing more. *)
Theorem Dialer_Close_twice_panics (d : Dialer E) (ticks : nat) (rt : Runtime E) :
  fst (Dialer_Close (snd (Dialer_Close rt))) = Panics "close of closed channel" /\
  instanceCloses (lifeSince (life (snd (Dialer_Close rt)))
                            (life (snd (Dialer_Close (snd (Dialer_Close rt))))))
  ≡ₚ snd <$> map_to_list (instances (world rt)) /\
  reportOpenConns d ticks (snd (Dialer_Close rt)) = (tt, snd (Dialer_Close rt)) /\
  outside (world (snd (Dialer_Close (snd (Dialer_Close rt)))))
  = closedProviders
      (instanceCloses (lifeSince (life (snd (Dialer_Close rt)))
                                 (life (snd (Dialer_Close (snd (Dialer_Close rt)))))))
      (outside (world (snd (Dialer_Close rt)))).
Proof.
  assert (doneClosed (snd (Dialer_Close rt)) = true) as Hclosed.
  { unfold Dialer_Close.
    destruct (doneClosed (fold_left closeInstance _ rt)) eqn:Hdone; simpl; auto. }
  assert (instances (world (snd (Dialer_Close rt))) = instances (world rt)) as Hreg.
  { unfold Dialer_Close.
    destruct (closeInstances_effects (snd <$> map_to_list (instances (world rt))) rt)
      as (Hreg & _).
    destruct (doneClosed (fold_left closeInstance _ rt)); simpl; assumption. }
  split; [|split; [|split]].
  - unfold Dialer_Close at 1.
    destruct (closeInstances_effects
                (snd <$> map_to_list (instances (world (snd (Dialer_Close rt)))))
                (snd (Dialer_Close rt))) as (_ & _ & _ & _ & Hdone & _).
    now rewrite Hdone, Hclosed.
  - unfold Dialer_Close at 2, lifeSince.
    destruct (closeInstances_effects
                (snd <$> map_to_list (instances (world (snd (Dialer_Close rt)))))
                (snd (Dialer_Close rt))) as (_ & _ & _ & _ & Hdone & Hlife).
    rewrite Hdone, Hclosed. simpl.
    now rewrite Hlife, drop_app_length, instanceCloses_fmap, Hreg.
  - apply reportOpenConns_stopped. now left.
  - generalize (snd (Dialer_Close rt)) Hclosed. clear. intros rt1 Hclosed.
    unfold Dialer_Close, lifeSince.
    destruct (closeInstances_effects
                (snd <$> map_to_list (instances (world rt1))) rt1)
      as (_ & _ & _ & _ & Hdone & Hlife).
    rewrite Hdone, Hclosed. simpl.
    rewrite Hlife, drop_app_length, instanceCloses_fmap.
    apply closeInstances_outside.
Qed.
End ReporterMore.

Section DialAfterClose.
Context {E : Type} `{Collaborators E} `{Lifecycle E}.

(** X30. [Close] does not stop dials: a [Dial] after [Close] for an
    identifier that has a provider in the registry uses that provider, which
    has been closed, and does not build a new one: [ConnectInfo] is called
    on it in the outside world that the [Close] of the providers and one
    reading of the clock have left. *)
Theorem Dial_after_Close_uses_closed_provider (d : Dialer E) (instance : string)
    (opts : list DialOption) (rt : Runtime E) (w' : World E)
    (res : instrumentedConn + error) (i : Instance) :
  instances (world rt) !! instance = Some i ->
  Dial d instance opts (world (snd (Dialer_Close rt))) = (res, w') ->
  In i (instanceCloses (lifeSince (life rt) (life (snd (Dialer_Close rt))))) /\
  newInstanceCalls (eventsSince (world (snd (Dialer_Close rt))) w') = [] /\
  connectInfoCalls (eventsSince (world (snd (Dialer_Close rt))) w')
  = [(i, ipType (dialConfig d opts))] /\
  outside (world (snd (Dialer_Close rt)))
  = closedProviders (instanceCloses (lifeSince (life rt) (life (snd (Dialer_Close rt)))))
                    (outside (world rt)) /\
  exists startTime e0 info,
    time_Now (outside (world (snd (Dialer_Close rt)))) = (startTime, e0) /\
    In (EvConnectInfo i (ipType (dialConfig d opts)) info)
       (eventsSince (world (snd (Dialer_Close rt))) w') /\
    info = fst (ConnectInfo i (ipType (dialConfig d opts)) e0).
Proof.
  intros Hentry Hrun.
  assert (instances (world (snd (Dialer_Close rt))) = instances (world rt) /\
          life (snd (Dialer_Close rt))
          = (life rt ++ (LvInstanceClose <$> (snd <$> map_to_list (instances (world rt)))))%list /\
          outside (world (snd (Dialer_Close rt)))
          = closedProviders (snd <$> map_to_list (instances (world rt)))
                            (outside (world rt)))
    as (Hreg & Hlife & Hout).
  { unfold Dialer_Close.
    destruct (closeInstances_effects (snd <$> map_to_list (instances (world rt))) rt)
      as (Hreg & _ & _ & _ & _ & Hlife).
    pose proof (closeInstances_outside (snd <$> map_to_list (instances (world rt))) rt)
      as Hout.
    destruct (doneClosed (fold_left closeInstance _ rt)); simpl; auto. }
  split; [|split; [|split; [|split]]].
  - unfold lifeSince. rewrite Hlife, drop_app_length, instanceCloses_fmap.
    apply list_elem_of_In, list_elem_of_fmap. exists (instance, i).
    split; [reflexivity|]. now apply elem_of_map_to_list.
  - rewrite <- Hreg in Hentry. revert Hentry Hrun.
    generalize (world (snd (Dialer_Close rt))). intros w Hentry Hrun.
    dial_runs Hrun. all: reflexivity.
  - rewrite <- Hreg in Hentry. revert Hentry Hrun.
    generalize (world (snd (Dialer_Close rt))). intros w Hentry Hrun.
    dial_runs Hrun. all: reflexivity.
  - unfold lifeSince. now rewrite Hlife, drop_app_length, instanceCloses_fmap.
  - rewrite <- Hreg in Hentry. revert Hentry Hrun.
    generalize (world (snd (Dialer_Close rt))). intros w Hentry Hrun.
    dial_runs Hrun.
    all: eexists _, _, _; split; [reflexivity|]; split; [simpl; auto 14|];
      match goal with
      | Hci : ConnectInfo _ _ _ = _ |- _ => now rewrite Hci
      end.
Qed.
End DialAfterClose.

(** * The further properties at concrete runs *)

Lemma queryDNS_fails_iff_none_parses_witness :
  (exists e,
     fst (@queryDNS specParseConnName _ scriptedResolver "db.example.com"
            (mkResolver [("srv", badRecords, None)] [])) = inr e) <->
  Forall (@unparseable specParseConnName) badRecords.
Proof.
  apply (@queryDNS_fails_iff_none_parses specParseConnName _ scriptedResolver
           (mkResolver [("srv", badRecords, None)] [])
           "db.example.com" "srv" badRecords None []).
  reflexivity.
Defined.

Lemma queryDNS_selects_least_parseable_witness :
  exists rec,
    In rec mixedRecords /\
    specParseConnName (TrimRight (Target rec) ".") = inl (mkConnName "a" "x" "y") /\
    forall rec' cn',
      In rec' mixedRecords ->
      specParseConnName (TrimRight (Target rec') ".") = inl cn' ->
      srvLe rec rec'.
Proof.
  apply (@queryDNS_selects_least_parseable specParseConnName _ scriptedResolver
           (mkResolver [("srv", mixedRecords, None)] [])
           "db.example.com" "srv" mixedRecords None []).
  - reflexivity.
  - vm_compute. reflexivity.
Defined.

Lemma queryDNS_order_weight_port_irrelevant_witness :
  fst (@queryDNS specParseConnName _ scriptedResolver "db.example.com"
         (mkResolver [("srv", mixedRecords, None)] []))
  = fst (@queryDNS specParseConnName _ scriptedResolver "db.example.com"
           (mkResolver [("other", shuffledRecords, None)] [])).
Proof.
  apply (@queryDNS_order_weight_port_irrelevant specParseConnName _ scriptedResolver
           (mkResolver [("srv", mixedRecords, None)] [])
           (mkResolver [("other", shuffledRecords, None)] [])
           "db.example.com" "srv" "other" mixedRecords shuffledRecords None [] []).
  - reflexivity.
  - reflexivity.
  - apply (Permutation_app_comm [(10%N, "b:x:y."); (1%N, "bad.")] [(10%N, "a:x:y..")]).
Defined.


Lemma parseRecords_trailing_dots_witness :
  @parseRecords specParseConnName "db.example.com"
    [mkSRV "bad." 0 1 0; mkSRV "a:x:y.." 0 10 0] None
  = @parseRecords specParseConnName "db.example.com"
      [mkSRV "bad" 0 1 0; mkSRV "a:x:y" 0 10 0] None.
Proof.
  apply (@parseRecords_trailing_dots specParseConnName).
  repeat constructor.
  - exists "bad", 1%nat, 0%nat. repeat split; reflexivity.
  - exists "a:x:y", 2%nat, 0%nat. repeat split; reflexivity.
Defined.

Lemma Dial_spans_are_ended_witness :
  (startedSpans (dialLog handshakeFailScript) = [spanDial; spanInstanceInfo] /\
   endedSpans (dialLog handshakeFailScript)
   = [(spanInstanceInfo, errOf (fst (dialWith handshakeFailScript)));
      (spanDial, errOf (fst (dialWith handshakeFailScript)))] /\
   dialFuncCalls (dialLog handshakeFailScript) = [] /\
   exists err, fst (dialWith handshakeFailScript) = inr err) \/
  (startedSpans (dialLog handshakeFailScript)
   = [spanDial; spanInstanceInfo; spanConnect] /\
   endedSpans (dialLog handshakeFailScript)
   = [(spanInstanceInfo, None);
      (spanConnect, errOf (fst (dialWith handshakeFailScript)));
      (spanDial, errOf (fst (dialWith handshakeFailScript)))] /\
   exists i ip addr tlsCfg,
     In (EvConnectInfo i ip (inl (addr, tlsCfg))) (dialLog handshakeFailScript)).
Proof.
  apply (@Dial_spans_are_ended _ scriptedCollaborators scriptedDialer theInstance []
           (freshWorld handshakeFailScript) (snd (dialWith handshakeFailScript))
           (fst (dialWith handshakeFailScript))).
  apply surjective_pairing.
Defined.

Lemma Dial_failure_is_not_counted_witness :
  goroutines (snd (dialWith keepAliveFailScript)) = [] /\
  openConns (snd (dialWith keepAliveFailScript)) = ∅.
Proof.
  apply (@Dial_failure_is_not_counted _ scriptedCollaborators scriptedDialer
           theInstance [] (freshWorld keepAliveFailScript)
           (snd (dialWith keepAliveFailScript))
           (DialError "failed to set keep-alive" "my-project:us-central1:my-instance"
                      (ErrExternal "bad descriptor"))).
  vm_compute. reflexivity.
Defined.

Lemma Dial_reuses_provider_witness :
  newInstanceCalls (eventsSince (snd (dialWith happyScript))
                                (snd (Dial scriptedDialer theInstance []
                                           (snd (dialWith happyScript))))) = [] /\
  instances (snd (Dial scriptedDialer theInstance [] (snd (dialWith happyScript))))
  = instances (snd (dialWith happyScript)) /\
  connectInfoCalls (eventsSince (snd (dialWith happyScript))
                                (snd (Dial scriptedDialer theInstance []
                                           (snd (dialWith happyScript)))))
  = [(7%N, ipType (dialConfig scriptedDialer []))].
Proof.
  apply (@Dial_reuses_provider _ scriptedCollaborators scriptedDialer theInstance []
           (snd (dialWith happyScript))
           (snd (Dial scriptedDialer theInstance [] (snd (dialWith happyScript))))
           (fst (Dial scriptedDialer theInstance [] (snd (dialWith happyScript))))
           7%N).
  - vm_compute. reflexivity.
  - apply surjective_pairing.
Defined.

Lemma Dial_registry_grows_witness :
  instances (freshWorld tcpFailScript) ⊆ instances (snd (dialWith tcpFailScript)) /\
  (forall connName, connName <> theInstance ->
                    instances (snd (dialWith tcpFailScript)) !! connName
                    = instances (freshWorld tcpFailScript) !! connName) /\
  (forall connName i,
     In (EvNewInstance connName (inl i)) (dialLog tcpFailScript) ->
     connName = theInstance /\
     instances (freshWorld tcpFailScript) !! theInstance = None /\
     instances (snd (dialWith tcpFailScript))
     = <[theInstance := i]> (instances (freshWorld tcpFailScript))).
Proof.
  apply (@Dial_registry_grows _ scriptedCollaborators scriptedDialer theInstance []
           (freshWorld tcpFailScript) (snd (dialWith tcpFailScript))
           (fst (dialWith tcpFailScript))).
  apply surjective_pairing.
Defined.

Lemma Dial_new_instance_failure_witness :
  fst (dialWith retryScript) = inr (ErrExternal "no admin API client") /\
  theInstance = theInstance /\
  instances (snd (dialWith retryScript)) = instances (freshWorld retryScript) /\
  connectInfoCalls (dialLog retryScript) = [] /\
  dialFuncCalls (dialLog retryScript) = [] /\
  forceRefreshCalls (dialLog retryScript) = [].
Proof.
  apply (@Dial_new_instance_failure _ scriptedCollaborators scriptedDialer theInstance []
           (freshWorld retryScript) (snd (dialWith retryScript))
           (fst (dialWith retryScript)) theInstance
           (ErrExternal "no admin API client")).
  - apply surjective_pairing.
  - find_event.
Defined.

Lemma Dial_keep_alive_only_on_TCP_witness :
  keepAliveCalls (dialLog proxyScript) = [] /\
  keepAlivePeriodCalls (dialLog proxyScript) = [] /\
  exists tlsCfg, handshakeCalls (dialLog proxyScript) = [TLSClient (OtherConn 4) tlsCfg].
Proof.
  apply (@Dial_keep_alive_only_on_TCP _ scriptedCollaborators scriptedDialer
           theInstance [] (freshWorld proxyScript) (snd (dialWith proxyScript))
           (fst (dialWith proxyScript)) "10.0.0.1:3307" (OtherConn 4)).
  - apply surjective_pairing.
  - find_event.
Defined.

Lemma Dial_success_shape_witness :
  exists i addr tlsCfg conn,
    instances (snd (dialWith happyScript)) !! theInstance = Some i /\
    In (EvConnectInfo i (ipType (dialConfig scriptedDialer [])) (inl (addr, tlsCfg)))
       (dialLog happyScript) /\
    dialFuncCalls (dialLog happyScript) = [("tcp", JoinHostPort addr serverProxyPort)] /\
    In (EvDialFunc "tcp" (JoinHostPort addr serverProxyPort) (inl conn))
       (dialLog happyScript) /\
    Conn happyConn = TLSClient conn tlsCfg /\
    In (EvHandshake (TLSClient conn tlsCfg) None) (dialLog happyScript) /\
    forceRefreshCalls (dialLog happyScript) = [] /\
    closeCalls (dialLog happyScript) = [] /\
    exists startTime eh e1 elapsed,
      reachesHandshake scriptedDialer theInstance [] (freshWorld happyScript)
                       startTime i conn tlsCfg eh /\
      Handshake (TLSClient conn tlsCfg) eh = (None, e1) /\
      time_Since startTime e1 = (elapsed, outside (snd (dialWith happyScript))) /\
      goroutines (snd (dialWith happyScript))
      = (goroutines (freshWorld happyScript)
         ++ [incOpenConns theInstance (Milliseconds elapsed)])%list.
Proof.
  apply (@Dial_success_shape _ scriptedCollaborators scriptedDialer theInstance []
           (freshWorld happyScript) (snd (dialWith happyScript)) happyConn).
  vm_compute. reflexivity.
Defined.

Lemma Dial_never_retries_witness :
  length (newInstanceCalls (dialLog tcpFailScript)) <= 1 /\
  length (connectInfoCalls (dialLog tcpFailScript)) <= 1 /\
  length (dialFuncCalls (dialLog tcpFailScript)) <= 1 /\
  length (handshakeCalls (dialLog tcpFailScript)) <= 1 /\
  length (forceRefreshCalls (dialLog tcpFailScript)) <= 1 /\
  (forceRefreshCalls (dialLog tcpFailScript) <> [] <->
   (exists network addr err,
      In (EvDialFunc network addr (inr err)) (dialLog tcpFailScript)) \/
   (exists c err, In (EvHandshake c (Some err)) (dialLog tcpFailScript))) /\
  (forall i,
     In (EvForceRefresh i) (dialLog tcpFailScript) ->
     exists e1,
       (exists addr e0 err,
          In (EvDialFunc "tcp" addr (inr err)) (dialLog tcpFailScript) /\
          dialFunc scriptedDialer "tcp" addr e0 = (inr err, e1) /\
          outside (snd (dialWith tcpFailScript)) = ForceRefresh i e1) \/
       (exists c err eh closeRes,
          In (EvHandshake c (Some err)) (dialLog tcpFailScript) /\
          Handshake c eh = (Some err, e1) /\
          Conn_Close c (ForceRefresh i e1)
          = (closeRes, outside (snd (dialWith tcpFailScript))))).
Proof.
  apply (@Dial_never_retries _ scriptedCollaborators scriptedDialer theInstance []
           (freshWorld tcpFailScript) (snd (dialWith tcpFailScript))
           (fst (dialWith tcpFailScript))).
  apply surjective_pairing.
Defined.

Lemma counters_do_not_depend_on_schedule_witness :
  instances (scheduled [1; 0]%nat closedWorld) = instances closedWorld /\
  forall instance,
    counter (scheduled [1; 0]%nat closedWorld) instance
    = if touches instance (goroutines closedWorld)
      then wrap64 (counter closedWorld instance
                   + netDelta instance (goroutines closedWorld))
      else counter closedWorld instance.
Proof.
  apply (@counters_do_not_depend_on_schedule _ scriptedDialer [1; 0]%nat closedWorld
           (scheduled [1; 0]%nat closedWorld)).
  - vm_compute. reflexivity.
  - vm_compute. reflexivity.
Defined.

Lemma dial_then_close_is_balanced_witness :
  counter (scheduled [1; 0]%nat closedWorld) theInstance
  = if touches theInstance (goroutines (freshWorld happyScript))
    then wrap64 (counter (freshWorld happyScript) theInstance
                 + netDelta theInstance (goroutines (freshWorld happyScript)))
    else counter (freshWorld happyScript) theInstance.
Proof.
  refine (@dial_then_close_is_balanced _ scriptedCollaborators scriptedDialer
            theInstance [] [1; 0]%nat (freshWorld happyScript)
            (snd (dialWith happyScript)) closedWorld
            (scheduled [1; 0]%nat closedWorld) happyConn _ _ _ _ _ theInstance).
  - unfold isInt64. vm_compute. split; [discriminate|reflexivity].
  - vm_compute. reflexivity.
  - vm_compute. reflexivity.
  - vm_compute. reflexivity.
  - vm_compute. reflexivity.
Defined.

Lemma instrumentedConn_Close_twice_witness :
  goroutines (snd (instrumentedConn_Close happyConn closedWorld))
  = (goroutines (snd (dialWith happyScript)) ++ [closeFunc happyConn; closeFunc happyConn])%list.
Proof.
  apply (@instrumentedConn_Close_twice _ scriptedCollaborators happyConn
           (snd (dialWith happyScript)) closedWorld
           (snd (instrumentedConn_Close happyConn closedWorld))).
  - vm_compute. reflexivity.
  - vm_compute. reflexivity.
Defined.

Lemma NewDialer_option_error_witness :
  @NewDialer _ scriptedLifecycle
    ([withIAMAuthN] ++ withBadCredentials :: [withRSAKey 5%N]) freshPackage
  = (inr (OfOption (ErrExternal "cannot read credentials file")), freshPackage).
Proof.
  apply (@NewDialer_option_error _ scriptedLifecycle [withIAMAuthN] [withRSAKey 5%N]
           withBadCredentials (withIAMAuthN (@defaultDialerConfig _ scriptedLifecycle))).
  - reflexivity.
  - reflexivity.
Defined.

Lemma NewDialer_token_source_witness :
  iamTokenSource (dv_dialer (built scriptedLifecycle [withTokenSource 44%N] freshPackage))
  = None /\
  tokenSourceCalls
    (lifeSince (pkgLog freshPackage)
               (pkgLog (snd (@NewDialer _ scriptedLifecycle [withTokenSource 44%N]
                               freshPackage)))) = [].
Proof.
  apply (@NewDialer_token_source _ scriptedLifecycle [withTokenSource 44%N]
           (withTokenSource 44%N (@defaultDialerConfig _ scriptedLifecycle))
           freshPackage
           (snd (@NewDialer _ scriptedLifecycle [withTokenSource 44%N] freshPackage))
           (built scriptedLifecycle [withTokenSource 44%N] freshPackage)).
  - reflexivity.
  - vm_compute. reflexivity.
Defined.

Lemma NewDialer_shares_default_key_witness :
  key (dv_dialer (built scriptedLifecycle [withIAMAuthN]
                        (snd (@NewDialer _ scriptedLifecycle [] freshPackage))))
  = key (dv_dialer (built scriptedLifecycle [] freshPackage)) /\
  keyGenerations
    (lifeSince (pkgLog (snd (@NewDialer _ scriptedLifecycle [] freshPackage)))
               (pkgLog (snd (@NewDialer _ scriptedLifecycle [withIAMAuthN]
                               (snd (@NewDialer _ scriptedLifecycle [] freshPackage))))))
  = [].
Proof.
  apply (@NewDialer_shares_default_key _ scriptedLifecycle [] [withIAMAuthN]
           (@defaultDialerConfig _ scriptedLifecycle)
           (withIAMAuthN (@defaultDialerConfig _ scriptedLifecycle))
           freshPackage).
  - reflexivity.
  - reflexivity.
  - reflexivity.
  - reflexivity.
  - vm_compute. reflexivity.
  - vm_compute. reflexivity.
Defined.

Lemma NewDialer_key_failure_is_permanent_witness :
  (fst (@NewDialer _ noKeyLifecycle [withIAMAuthN]
          (snd (@NewDialer _ noKeyLifecycle [] freshPackage)))
   = inr (Errorf_v "failed to generate RSA keys: %v" (ErrExternal "no entropy")) \/
   exists e', fst (@NewDialer _ noKeyLifecycle [withIAMAuthN]
                     (snd (@NewDialer _ noKeyLifecycle [] freshPackage)))
              = inr (Errorf_v "failed to create token source: %v" e')) /\
  keyGenerations
    (lifeSince (pkgLog (snd (@NewDialer _ noKeyLifecycle [] freshPackage)))
               (pkgLog (snd (@NewDialer _ noKeyLifecycle [withIAMAuthN]
                               (snd (@NewDialer _ noKeyLifecycle [] freshPackage))))))
  = [].
Proof.
  apply (@NewDialer_key_failure_is_permanent _ noKeyLifecycle [] [withIAMAuthN]
           (@defaultDialerConfig _ noKeyLifecycle)
           (withIAMAuthN (@defaultDialerConfig _ noKeyLifecycle))
           freshPackage).
  - reflexivity.
  - reflexivity.
  - vm_compute. reflexivity.
  - reflexivity.
  - reflexivity.
Defined.

Lemma NewDialer_own_key_witness :
  keyOnceDone (snd (@NewDialer _ scriptedLifecycle [withRSAKey 5%N] freshPackage))
  = keyOnceDone freshPackage /\
  defaultKey (snd (@NewDialer _ scriptedLifecycle [withRSAKey 5%N] freshPackage))
  = defaultKey freshPackage /\
  defaultKeyErr (snd (@NewDialer _ scriptedLifecycle [withRSAKey 5%N] freshPackage))
  = defaultKeyErr freshPackage /\
  keyGenerations
    (lifeSince (pkgLog freshPackage)
               (pkgLog (snd (@NewDialer _ scriptedLifecycle [withRSAKey 5%N]
                               freshPackage)))) = [] /\
  forall dv,
    fst (@NewDialer _ scriptedLifecycle [withRSAKey 5%N] freshPackage) = inl dv ->
    key (dv_dialer dv)
    = cfg_rsaKey (withRSAKey 5%N (@defaultDialerConfig _ scriptedLifecycle)).
Proof.
  apply (@NewDialer_own_key _ scriptedLifecycle [withRSAKey 5%N]
           (withRSAKey 5%N (@defaultDialerConfig _ scriptedLifecycle)) freshPackage).
  - reflexivity.
  - discriminate.
  - apply surjective_pairing.
Defined.

Lemma NewDialer_collaborator_failure_witness :
  fst (@NewDialer _ noTokenLifecycle [withIAMAuthN] freshPackage)
  = inr (Errorf_v "failed to create token source: %v"
                  (ErrExternal "no default credentials")) /\
  keyGenerations
    (lifeSince (pkgLog freshPackage)
               (pkgLog (snd (@NewDialer _ noTokenLifecycle [withIAMAuthN] freshPackage))))
  = [] /\
  newServiceCalls
    (lifeSince (pkgLog freshPackage)
               (pkgLog (snd (@NewDialer _ noTokenLifecycle [withIAMAuthN] freshPackage))))
  = [] /\
  keyOnceDone (snd (@NewDialer _ noTokenLifecycle [withIAMAuthN] freshPackage))
  = keyOnceDone freshPackage.
Proof.
  apply (proj1 (@NewDialer_collaborator_failure _ noTokenLifecycle [withIAMAuthN]
                  freshPackage
                  (snd (@NewDialer _ noTokenLifecycle [withIAMAuthN] freshPackage))
                  (fst (@NewDialer _ noTokenLifecycle [withIAMAuthN] freshPackage))
                  (surjective_pairing _))
               "https://www.googleapis.com/auth/sqlservice.admin"
               (ErrExternal "no default credentials")).
  vm_compute. left. reflexivity.
Defined.

Lemma reportOpenConns_stops_witness :
  @reportOpenConns _ scriptedLifecycle scriptedDialer 3 closedRuntime
  = (tt, closedRuntime).
Proof.
  apply (@reportOpenConns_stops _ scriptedLifecycle scriptedDialer 3 closedRuntime).
  left. vm_compute. reflexivity.
Defined.

Lemma reportOpenConns_one_snapshot_per_tick_witness :
  world (snd (@reportOpenConns _ scriptedLifecycle scriptedDialer 2 busyRuntime))
  = world busyRuntime /\
  doneClosed (snd (@reportOpenConns _ scriptedLifecycle scriptedDialer 2 busyRuntime))
  = false /\
  exists snaps,
    life (snd (@reportOpenConns _ scriptedLifecycle scriptedDialer 2 busyRuntime))
    = (life busyRuntime ++ concat snaps)%list /\
    length snaps = 2%nat /\
    Forall (fun snap => snap ≡ₚ @snapshot _ scriptedDialer (world busyRuntime)) snaps.
Proof.
  apply (@reportOpenConns_one_snapshot_per_tick _ scriptedLifecycle scriptedDialer 2
           busyRuntime).
  - reflexivity.
  - reflexivity.
Defined.

Lemma Dialer_Close_first_witness :
  fst (@Dialer_Close _ scriptedLifecycle busyRuntime) = Returns /\
  doneClosed closedRuntime = true /\
  instanceCloses (lifeSince (life busyRuntime) (life closedRuntime))
  ≡ₚ snd <$> map_to_list (instances (world busyRuntime)) /\
  instances (world closedRuntime) = instances (world busyRuntime) /\
  openConns (world closedRuntime) = openConns (world busyRuntime) /\
  goroutines (world closedRuntime) = goroutines (world busyRuntime) /\
  outside (world closedRuntime)
  = @closedProviders _ scriptedLifecycle
      (instanceCloses (lifeSince (life busyRuntime) (life closedRuntime)))
      (outside (world busyRuntime)).
Proof.
  apply (@Dialer_Close_first _ scriptedLifecycle busyRuntime). reflexivity.
Defined.

Lemma Dial_after_Close_uses_closed_provider_witness :
  In 7%N (instanceCloses (lifeSince (life busyRuntime) (life closedRuntime))) /\
  newInstanceCalls
    (eventsSince (world closedRuntime)
                 (snd (Dial scriptedDialer "p:r:one" [] (world closedRuntime)))) = [] /\
  connectInfoCalls
    (eventsSince (world closedRuntime)
                 (snd (Dial scriptedDialer "p:r:one" [] (world closedRuntime))))
  = [(7%N, ipType (dialConfig scriptedDialer []))] /\
  outside (world closedRuntime)
  = @closedProviders _ scriptedLifecycle
      (instanceCloses (lifeSince (life busyRuntime) (life closedRuntime)))
      (outside (world busyRuntime)) /\
  exists startTime e0 info,
    time_Now (outside (world closedRuntime)) = (startTime, e0) /\
    In (EvConnectInfo 7%N (ipType (dialConfig scriptedDialer [])) info)
       (eventsSince (world closedRuntime)
                    (snd (Dial scriptedDialer "p:r:one" [] (world closedRuntime)))) /\
    info = fst (ConnectInfo 7%N (ipType (dialConfig scriptedDialer [])) e0).
Proof.
  apply (@Dial_after_Close_uses_closed_provider _ scriptedCollaborators
           scriptedLifecycle scriptedDialer "p:r:one" [] busyRuntime
           (snd (Dial scriptedDialer "p:r:one" [] (world closedRuntime)))
           (fst (Dial scriptedDialer "p:r:one" [] (world closedRuntime))) 7%N).
  - vm_compute. reflexivity.
  - apply surjective_pairing.
Defined.
